(** * Segmentation benchmark driver: confusion-area accumulation and metrics

    Shallow embedding of [deploy/python/infer_benchmark.py].

    The driver itself ([parse_args], [DatasetPredictor.test_dataset], [main])
    is embedded from the script.  The functions it imports from
    [paddleseg.utils.metrics] ([calculate_area], [mean_iou], [accuracy],
    [kappa]) are not part of the script; they are modelled from the
    specification's description of the accumulator and kept apart in
    [Module metrics]. *)

From Stdlib Require Import ZArith QArith Qabs Lia.
From stdpp Require Import base list strings gmap.

Close Scope Q_scope.
Local Open Scope Z_scope.

(** ** Python outcomes *)

(** The exceptions that can end a run. *)
Inductive exn : Type :=
  | RuntimeError (msg : string)
  | ValueError (msg : string)
  | ZeroDivisionError
  | SystemExit (code : Z)
  | OtherError (msg : string).

(** A call either returns a value or raises. *)
Inductive res (A : Type) : Type :=
  | Ok (a : A)
  | Raise (e : exn).
Arguments Ok {A} a.
Arguments Raise {A} e.

#[global] Instance res_ret : MRet res := fun A a => Ok a.
#[global] Instance res_bind : MBind res := fun A B k m =>
  match m with
  | Ok a => k a
  | Raise e => Raise e
  end.

Definition returns {A} (m : res A) : Prop := exists a, m = Ok a.

(** A label map: rows of class indices. *)
Definition grid := list (list Z).

(** The extent of each row; two grids have the same shape when these agree. *)
Definition shape (g : grid) : list nat := length <$> g.

(** ** The metric library, modelled from the specification *)

Module metrics.

(** Modelled from the spec: part of [calculate_area], which is not in the
    script.  The pixels of a sample ("a pair (predictedLabelMap,
    groundTruthLabelMap), each a 2-D grid"), in row-major order, prediction
    first. *)
Definition pixels (pred label : grid) : list (Z * Z) :=
  zip (concat pred) (concat label).

(** Modelled from the spec: part of [calculate_area].  "For each pixel not
    equal to ignoreIndex in groundTruth": only those pixels are compared. *)
Fixpoint counted (ignore_index : Z) (px : list (Z * Z)) : list (Z * Z) :=
  match px with
  | [] => []
  | (p, g) :: rest =>
      if g =? ignore_index then counted ignore_index rest
      else (p, g) :: counted ignore_index rest
  end.

Fixpoint count_px (f : Z -> Z -> bool) (px : list (Z * Z)) : Z :=
  match px with
  | [] => 0
  | (p, g) :: rest => (if f p g then 1 else 0) + count_px f rest
  end.

Definition classes (num_classes : Z) : list Z := seqZ 0 num_classes.

(** Modelled from the spec: [paddleseg.utils.metrics.calculate_area] is not
    in the script.  Operation [accumulate]: "for each pixel not equal to
    ignoreIndex in groundTruth, compare predicted vs. ground-truth class";
    per class [c] the label area counts the pixels with groundTruth = c,
    the predicted area those with predicted = c, the intersect area those
    with both; grids of different shape "must fail fast".  The triple is
    returned in the order the script unpacks it: intersect, predicted,
    label. *)
Definition calculate_area (pred label : grid) (num_classes ignore_index : Z)
  : res (list Z * list Z * list Z) :=
  if decide (shape pred = shape label) then
    let px := counted ignore_index (pixels pred label) in
    Ok ((fun c => count_px (fun p g => (p =? c) && (g =? c)) px) <$> classes num_classes,
        (fun c => count_px (fun p _ => p =? c) px) <$> classes num_classes,
        (fun c => count_px (fun _ g => g =? c) px) <$> classes num_classes)
  else Raise (ValueError "shape mismatch").

(** Modelled from the spec: the division of the metric derivations, which
    are not in the script.  "Division-by-zero in metric derivation:
    recovered locally by defining the affected per-class metric as zero ...
    never surfaced as an error": a quotient whose divisor is zero is 0.
    Quotients are kept in lowest terms. *)
Definition divide (a b : Q) : Q :=
  if Qeq_bool b 0 then 0%Q else Qred (a / b).

Definition sumZ (l : list Z) : Z := foldr Z.add 0 l.
Definition sumQ (l : list Q) : Q := foldr Qplus 0%Q l.

(** Modelled from the spec: part of [mean_iou].  Numerator and denominator
    of each class's IoU, "intersect[c] / (predicted[c] + label[c] -
    intersect[c])". *)
Definition iou_terms (intersect predicted label : list Z) : list (Z * Z) :=
  zip_with (fun i pl => (i, pl.1 + pl.2 - i)) intersect (zip predicted label).

(** Modelled from the spec: part of [mean_iou].  One pass over the classes,
    keeping the per-class values, the sum of the values whose denominator is
    nonzero and the number of such classes. *)
Fixpoint iou_pass (terms : list (Z * Z)) : list Q * Q * Z :=
  match terms with
  | [] => ([], 0%Q, 0)
  | (num, den) :: rest =>
      let '(ious, total, valid) := iou_pass rest in
      if den =? 0 then (0%Q :: ious, total, valid)
      else let iou := Qred (inject_Z num / inject_Z den) in
           (iou :: ious, (iou + total)%Q, 1 + valid)
  end.

(** Modelled from the spec: [paddleseg.utils.metrics.mean_iou] is not in
    the script.  Operation [meanIoU]: per class the ratio "when the
    denominator is nonzero, else defined as 0"; "returns the per-class
    vector and the arithmetic mean over classes where the denominator was
    nonzero".  The derivation "cannot fail at runtime": it always returns. *)
Definition mean_iou (intersect predicted label : list Z) : res (list Q * Q) :=
  let '(ious, total, valid) := iou_pass (iou_terms intersect predicted label) in
  Ok (ious, divide total (inject_Z valid)).

(** Modelled from the spec: part of [accuracy].  The per-class quotient,
    0 where the denominator is zero. *)
Definition class_ratio (num den : Z) : Q :=
  if den =? 0 then 0%Q else Qred (inject_Z num / inject_Z den).

(** Modelled from the spec: [paddleseg.utils.metrics.accuracy] is not in
    the script.  Operation [accuracy]: "per class, acc[c] = intersect[c] /
    predicted[c] when predicted[c] != 0 else 0; overall accuracy =
    sum(intersect) / sum(predicted)". *)
Definition accuracy (intersect predicted : list Z) : res (list Q * Q) :=
  let class_acc := zip_with class_ratio intersect predicted in
  Ok (class_acc, divide (inject_Z (sumZ intersect)) (inject_Z (sumZ predicted))).

(** Modelled from the spec: part of [kappa], which is not in the script.
    "expectedAgreement = sum(predicted[c] * label[c] for c) / totalArea^2"
    with "totalArea = sum(label)". *)
Definition expected_agreement (predicted label : list Z) : Q :=
  let total_area := inject_Z (sumZ label) in
  divide (inject_Z (sumZ (zip_with Z.mul predicted label)))
         (total_area * total_area)%Q.

(** Modelled from the spec: [paddleseg.utils.metrics.kappa] is not in the
    script.  Operation [kappa]: "observedAgreement = sum(intersect) /
    totalArea", the expected agreement as above, "kappa =
    (observedAgreement - expectedAgreement) / (1 - expectedAgreement),
    defined as 0 if expectedAgreement == 1". *)
Definition kappa (intersect predicted label : list Z) : res Q :=
  let total_area := inject_Z (sumZ label) in
  let po := divide (inject_Z (sumZ intersect)) total_area in
  let pe := expected_agreement predicted label in
  if Qeq_bool pe 1 then Ok 0%Q
  else Ok (divide (po - pe)%Q (1 - pe)%Q).

End metrics.

(** ** The running counts of the evaluation loop *)

(** A running count as the script holds it: the integer the loop starts
    from, or a tensor with one entry per class. *)
Inductive area : Type :=
  | Int (n : Z)
  | Tensor (v : list Z).

(** [a + b] on running counts: an integer is broadcast over a tensor, two
    tensors of one length are added entry by entry, a one-entry tensor is
    broadcast, and other lengths do not broadcast.  Entries are added as
    exact integers: the element type of the tensors is chosen by
    [calculate_area], not by the script, and a fixed-width element type
    would round or wrap sums that this model keeps exact. *)
Definition add_area (a b : area) : res area :=
  match a, b with
  | Int m, Int n => Ok (Int (m + n))
  | Int m, Tensor v => Ok (Tensor (Z.add m <$> v))
  | Tensor u, Int n => Ok (Tensor ((fun x => x + n) <$> u))
  | Tensor u, Tensor v =>
      if decide (length u = length v) then Ok (Tensor (zip_with Z.add u v))
      else match u, v with
           | [x], _ => Ok (Tensor (Z.add x <$> v))
           | _, [y] => Ok (Tensor ((fun x => x + y) <$> u))
           | _, _ => Raise (ValueError "operands could not be broadcast")
           end
  end.

Arguments add_area : simpl never.

(** Reading entry [c] of a running count; an integer has no entries. *)
Definition area_get (a : area) (c : nat) : option Z :=
  match a with
  | Int _ => None
  | Tensor v => v !! c
  end.

(** [intersect_area_all], [pred_area_all], [label_area_all]. *)
Record counts : Type := Counts {
  intersect_area_all : area;
  pred_area_all : area;
  label_area_all : area
}.

(** Lines 141-143: the three counts start as the integer 0. *)
Definition counts_init : counts := Counts (Int 0) (Int 0) (Int 0).

(** What zero vectors of length [C] would be. *)
Definition counts_zeros (num_classes : Z) : counts :=
  let z := Tensor ((fun _ => 0) <$> metrics.classes num_classes) in
  Counts z z z.

(** The signature of [metrics.calculate_area]. *)
Definition area_fn := grid -> grid -> Z -> Z -> res (list Z * list Z * list Z).

(** Lines 161-169: the areas of one sample are added to the running counts. *)
Definition accumulate_step (calculate_area : area_fn)
    (num_classes ignore_index : Z) (st : counts) (pred label : grid) : res counts :=
  '(intersect_area, pred_area, label_area) ←
      calculate_area pred label num_classes ignore_index;
  ia ← add_area (intersect_area_all st) (Tensor intersect_area);
  pa ← add_area (pred_area_all st) (Tensor pred_area);
  la ← add_area (label_area_all st) (Tensor label_area);
  mret (Counts ia pa la).

(** The loop over a stream of (prediction, label) pairs, counts only. *)
Fixpoint accumulate (calculate_area : area_fn) (num_classes ignore_index : Z)
    (st : counts) (samples : list (grid * grid)) : res counts :=
  match samples with
  | [] => Ok st
  | (pred, label) :: rest =>
      st' ← accumulate_step calculate_area num_classes ignore_index st pred label;
      accumulate calculate_area num_classes ignore_index st' rest
  end.

(** Summing the counts of two accumulators entry by entry. *)
Definition add_counts (s1 s2 : counts) : res counts :=
  ia ← add_area (intersect_area_all s1) (intersect_area_all s2);
  pa ← add_area (pred_area_all s1) (pred_area_all s2);
  la ← add_area (label_area_all s1) (label_area_all s2);
  mret (Counts ia pa la).

(** The states the loop can be in, for a dataset's class count and ignore
    index. *)
Inductive reachable (calculate_area : area_fn) (num_classes ignore_index : Z)
  : counts -> Prop :=
  | reachable_init : reachable calculate_area num_classes ignore_index counts_init
  | reachable_step st pred label st' :
      reachable calculate_area num_classes ignore_index st ->
      accumulate_step calculate_area num_classes ignore_index st pred label = Ok st' ->
      reachable calculate_area num_classes ignore_index st'.

(** Putting one more pixel [x] into row [r] at column [k] of a grid. *)
Definition inject_px (r k : nat) (x : Z) (g : grid) : grid :=
  alter (fun row => take k row ++ x :: drop k row) r g.

(** ** The driver *)

(** The calls the driver makes into the inference engine, the dataset, the
    metric library and the logger. *)
Inductive op : Type :=
  | PredictorInit | DatasetInit | GetHandles | ProgbarInit
  | NpArray | Reshape | CopyFromCpu | Run | CopyToCpu | Postprocess | ToTensor
  | CalculateArea | ProgbarUpdate | MeanIou | Accuracy | Kappa | LoggerInfo.

(** What a run can observe of its environment: the wall clock, in ticks, and
    the calls made so far, oldest first. *)
Record world : Type := World { clock : Z; trace : list op }.

(** Computations that read the clock, make calls and may raise. *)
Definition M (A : Type) : Type := world -> res A * world.

#[global] Instance M_ret : MRet M := fun A a w => (Ok a, w).
#[global] Instance M_bind : MBind M := fun A B k m w =>
  match m w with
  | (Ok a, w') => k a w'
  | (Raise e, w') => (Raise e, w')
  end.

Definition lift {A} (r : res A) : M A := fun w => (r, w).
Definition raise {A} (e : exn) : M A := lift (Raise e).

(** [time.time()]. *)
Definition time_time : M Z := fun w => (Ok (clock w), w).

(** The parsed command line.  A field is [None] where Python has [None]. *)
Record Args : Type := {
  cfg : option string;
  dataset_type : option string;
  dataset_path : option string;
  dataset_mode : option string
}.

(** Truth value of a string-or-None: [None] and the empty string are false. *)
Definition truthy (o : option string) : bool :=
  match o with
  | Some s => negb (String.eqb s "")
  | None => false
  end.

(** The options as they occur on the command line: [None] when the option is
    not given. *)
Record cmdline : Type := {
  opt_config : option string;
  opt_dataset_type : option string;
  opt_dataset_path : option string;
  opt_dataset_mode : option string
}.

(** Lines 34-115.  [--config], [--dataset_type] and [--dataset_path] are
    declared [required=True]: the parser exits with status 2 when one of
    them is not given; [--dataset_mode] defaults to "val". *)
Definition parse_args (argv : cmdline) : res Args :=
  match opt_config argv, opt_dataset_type argv, opt_dataset_path argv with
  | Some c, Some t, Some p =>
      Ok {| cfg := Some c; dataset_type := Some t; dataset_path := Some p;
            dataset_mode := Some (default "val"%string (opt_dataset_mode argv)) |}
  | _, _, _ => Raise (SystemExit 2)
  end.

(** [total_time / len(dataset)]. *)
Definition average_time_of (total_time : Z) (len : nat) : res Q :=
  if decide (len = 0%nat) then Raise ZeroDivisionError
  else Ok (Qmake total_time (Pos.of_nat len)).

(** The figures the run logs. *)
Record Report : Type := {
  n_images : nat;
  r_miou : Q;
  r_acc : Q;
  r_kappa : Q;
  r_class_iou : list Q;
  r_class_acc : list Q;
  r_average_time : Q
}.

Section Driver.
(** Images, raw engine outputs and transform pipelines are opaque to the
    script. *)
Context {image output transforms : Type}.

Record Dataset : Type := {
  samples : list (image * grid);
  num_classes : Z;
  ignore_index : Z
}.

(** What [test_dataset] uses of [self]. *)
Record Predictor : Type := {
  self_args : Args;
  self_transforms : transforms;
  self_run : image -> output;
  self_postprocess : output -> grid
}.

(** Duration of a call, by kind of call and index of the sample it is
    made for. *)
Variable cost : op -> nat -> Z.
(** [Predictor.__init__], from [infer.py]. *)
Variable Predictor_init : Args -> res Predictor.
(** [manager.DATASETS.components_dict]: dataset constructors by name,
    taking [transforms], [dataset_root] and [mode]. *)
Variable components_dict :
  gmap string (transforms -> option string -> option string -> res Dataset).
(** The functions of [paddleseg.utils.metrics]. *)
Variable calculate_area : area_fn.
Variable mean_iou : area -> area -> area -> res (list Q * Q).
Variable accuracy : area -> area -> res (list Q * Q).
Variable kappa : area -> area -> area -> res Q.

(** A call of kind [o] for sample [idx]: it is recorded and the clock
    advances by its duration. *)
Definition call (o : op) (idx : nat) : M unit := fun w =>
  (Ok tt, World (clock w + cost o idx) (trace w ++ [o])).

(** Lines 148-171: the body of the loop for sample [idx]. *)
Definition loop_body (self : Predictor) (dataset : Dataset) (idx : nat)
    (img : image) (label : grid) (st : counts) (total_time : Z)
  : M (counts * Z) :=
  call NpArray idx;;
  call Reshape idx;;
  call CopyFromCpu idx;;
  start_time ← time_time;
  call Run idx;;
  end_time ← time_time;
  let total_time := total_time + (end_time - start_time) in
  call CopyToCpu idx;;
  call Postprocess idx;;
  let pred := self_postprocess self (self_run self img) in
  call ToTensor idx;;
  call CalculateArea idx;;
  st' ← lift (accumulate_step calculate_area (num_classes dataset)
                (ignore_index dataset) st pred label);
  call ProgbarUpdate idx;;
  mret (st', total_time).

(** Line 147: [for idx, (img, label) in enumerate(dataset)]. *)
Fixpoint loop (self : Predictor) (dataset : Dataset) (idx : nat)
    (rest : list (image * grid)) (st : counts) (total_time : Z)
  : M (counts * Z) :=
  match rest with
  | [] => mret (st, total_time)
  | (img, label) :: rest' =>
      '(st', total_time') ← loop_body self dataset idx img label st total_time;
      loop self dataset (S idx) rest' st' total_time'
  end.

(** Lines 173-184: the metrics are derived from the final counts and
    logged; the average time is computed for the last log line. *)
Definition summarize (dataset : Dataset) (st : counts) (total_time : Z)
  : M Report :=
  call MeanIou 0;;
  '(class_iou, miou) ← lift (mean_iou (intersect_area_all st)
                               (pred_area_all st) (label_area_all st));
  call Accuracy 0;;
  '(class_acc, acc) ← lift (accuracy (intersect_area_all st) (pred_area_all st));
  call Kappa 0;;
  k ← lift (kappa (intersect_area_all st) (pred_area_all st) (label_area_all st));
  call LoggerInfo 0;;
  call LoggerInfo 1;;
  call LoggerInfo 2;;
  avg ← lift (average_time_of total_time (length (samples dataset)));
  call LoggerInfo 3;;
  mret {| n_images := length (samples dataset);
          r_miou := miou; r_acc := acc; r_kappa := k;
          r_class_iou := class_iou; r_class_acc := class_acc;
          r_average_time := avg |}.

(** Lines 122-184. *)
Definition test_dataset (self : Predictor) : M Report :=
  match dataset_type (self_args self) ≫= (components_dict !!.) with
  | None => raise (RuntimeError "The dataset is not supported.")
  | Some new_dataset =>
      call DatasetInit 0;;
      dataset ← lift (new_dataset (self_transforms self)
                        (dataset_path (self_args self))
                        (dataset_mode (self_args self)));
      call GetHandles 0;;
      call ProgbarInit 0;;
      '(st, total_time) ← loop self dataset 0 (samples dataset) counts_init 0;
      summarize dataset st total_time
  end.

(** Lines 187-192. *)
Definition main (args : Args) : M Report :=
  call PredictorInit 0;;
  predictor ← lift (Predictor_init args);
  if truthy (dataset_type args) && truthy (dataset_path args)
  then test_dataset predictor
  else raise (RuntimeError "Please set dataset_type and dataset_path.").

(** Lines 206-207: [args = parse_args(); main(args)]. *)
Definition program (argv : cmdline) : M Report :=
  args ← lift (parse_args argv);
  main args.

(** The state a run starts in. *)
Definition world_init : world := World 0 [].

(** The (prediction, label) pairs the loop feeds to [calculate_area]. *)
Definition predictions (self : Predictor) (ds : list (image * grid))
  : list (grid * grid) :=
  (fun s => (self_postprocess self (self_run self s.1), s.2)) <$> ds.

(** Total duration of the [predictor.run()] calls for samples
    [idx, idx+1, ..., idx+n-1]. *)
Fixpoint run_time (idx n : nat) : Z :=
  match n with
  | O => 0
  | S n' => cost Run idx + run_time (S idx) n'
  end.

(** The outcome of the derivations and the average on final counts [st],
    without the clock and the call trace. *)
Definition summary (n : nat) (total_time : Z) (st : counts) : res Report :=
  '(class_iou, miou) ← mean_iou (intersect_area_all st) (pred_area_all st)
                          (label_area_all st);
  '(class_acc, acc) ← accuracy (intersect_area_all st) (pred_area_all st);
  k ← kappa (intersect_area_all st) (pred_area_all st) (label_area_all st);
  avg ← average_time_of total_time n;
  mret {| n_images := n; r_miou := miou; r_acc := acc; r_kappa := k;
          r_class_iou := class_iou; r_class_acc := class_acc;
          r_average_time := avg |}.

(** The outcome of a whole run on [dataset]. *)
Definition evaluation (self : Predictor) (dataset : Dataset) : res Report :=
  st ← accumulate calculate_area (num_classes dataset) (ignore_index dataset)
         counts_init (predictions self (samples dataset));
  summary (length (samples dataset))
          (run_time 0 (length (samples dataset))) st.

End Driver.

(** ** A small instance of the driver, for examples *)

Module toy.

(** Every call takes one tick, except that the engine takes [7 + idx] ticks
    on sample [idx]. *)
Definition cost (o : op) (idx : nat) : Z :=
  match o with
  | Run => 7 + Z.of_nat idx
  | _ => 1
  end.

(** An image stands for the label map the engine predicts for it. *)
Definition Predictor_init (a : Args) : res (@Predictor grid grid unit) :=
  Ok {| self_args := a; self_transforms := tt;
        self_run := fun img => img; self_postprocess := fun out => out |}.

Definition two_samples : @Dataset grid :=
  {| samples := [([[0; 1]; [1; 1]], [[0; 1]; [1; 0]]);
                 ([[1; 1]; [0; 0]], [[1; 255]; [0; 1]])];
     num_classes := 2; ignore_index := 255 |}.

Definition no_samples : @Dataset grid :=
  {| samples := []; num_classes := 2; ignore_index := 255 |}.

Definition components_dict
  : gmap string (unit -> option string -> option string -> res (@Dataset grid)) :=
  {[ "TwoSamples"%string := fun _ _ _ => Ok two_samples;
     "NoSamples"%string := fun _ _ _ => Ok no_samples ]}.

(** The metric library on running counts.  Modelled from the spec: the
    derivations take count vectors ("three ordered sequences of non-negative
    integers, one entry per class index"); tensors go to the derivations of
    [metrics], and an integer, which is not such a sequence, is rejected. *)
Definition mean_iou (i p l : area) : res (list Q * Q) :=
  match i, p, l with
  | Tensor i, Tensor p, Tensor l => metrics.mean_iou i p l
  | _, _, _ => Raise (OtherError "not a tensor")
  end.

Definition accuracy (i p : area) : res (list Q * Q) :=
  match i, p with
  | Tensor i, Tensor p => metrics.accuracy i p
  | _, _ => Raise (OtherError "not a tensor")
  end.

Definition kappa (i p l : area) : res Q :=
  match i, p, l with
  | Tensor i, Tensor p, Tensor l => metrics.kappa i p l
  | _, _, _ => Raise (OtherError "not a tensor")
  end.

Definition args_for (name path : string) : Args :=
  {| cfg := Some "deploy.yaml"%string; dataset_type := Some name;
     dataset_path := Some path; dataset_mode := Some "val"%string |}.

Definition self_for (name : string) : @Predictor grid grid unit :=
  {| self_args := args_for name "data"; self_transforms := tt;
     self_run := fun img => img; self_postprocess := fun out => out |}.

Definition run (argv : cmdline) : res Report * world :=
  program cost Predictor_init components_dict metrics.calculate_area
    mean_iou accuracy kappa argv world_init.

(** A dataset whose second label map does not have the shape of the
    prediction, and a registry that knows it. *)
Definition ragged_second : @Dataset grid :=
  {| samples := [([[0; 1]; [1; 1]], [[0; 1]; [1; 0]]);
                 ([[1; 1]; [0; 0]], [[1; 255]]);
                 ([[0; 0]; [0; 0]], [[0; 0]; [0; 0]])];
     num_classes := 2; ignore_index := 255 |}.

Definition components_with_ragged
  : gmap string (unit -> option string -> option string -> res (@Dataset grid)) :=
  <[ "Ragged"%string := fun _ _ _ => Ok ragged_second ]> components_dict.

Definition argv_for (name : string) : cmdline :=
  {| opt_config := Some "deploy.yaml"%string; opt_dataset_type := Some name;
     opt_dataset_path := Some "data"%string; opt_dataset_mode := None |}.

End toy.

(** ** Predicates used in the statements *)

(** After the first sample the three counts are tensors with [n] entries
    each, the intersect count below the other two entry by entry. *)
Definition class_counts (n : nat) (st : counts) : Prop :=
  exists i p l, st = Counts (Tensor i) (Tensor p) (Tensor l) /\
    length i = n /\ length p = n /\ length l = n /\
    Forall2 Z.le i p /\ Forall2 Z.le i l.

(** The classes that enter the mean: those whose denominator is nonzero. *)
Definition valid_terms (terms : list (Z * Z)) : list (Z * Z) :=
  filter (fun t => t.2 <> 0) terms.

Definition term_ratio (t : Z * Z) : Q := Qred (inject_Z t.1 / inject_Z t.2).

(** The calls of one pass through the loop body up to and including
    [calculate_area], and of a whole pass. *)
Definition attempt_ops : list op :=
  [NpArray; Reshape; CopyFromCpu; Run; CopyToCpu; Postprocess; ToTensor;
   CalculateArea].

Definition sample_ops : list op := attempt_ops ++ [ProgbarUpdate].

(** The calls before the loop and after it. *)
Definition setup_ops : list op := [DatasetInit; GetHandles; ProgbarInit].

Definition summary_ops : list op :=
  [MeanIou; Accuracy; Kappa; LoggerInfo; LoggerInfo; LoggerInfo; LoggerInfo].

(** Total duration of the calls [ops] made for sample [idx]. *)
Definition ops_cost (cost : op -> nat -> Z) (ops : list op) (idx : nat) : Z :=
  foldr Z.add 0 ((fun o => cost o idx) <$> ops).

(** Total duration of the whole passes for samples [idx, ..., idx+n-1]. *)
Definition loop_cost (cost : op -> nat -> Z) (idx n : nat) : Z :=
  foldr Z.add 0 (ops_cost cost sample_ops <$> seq idx n).

Definition setup_cost (cost : op -> nat -> Z) : Z :=
  cost DatasetInit 0%nat + cost GetHandles 0%nat + cost ProgbarInit 0%nat.

Definition summary_cost (cost : op -> nat -> Z) : Z :=
  cost MeanIou 0%nat + cost Accuracy 0%nat + cost Kappa 0%nat +
  cost LoggerInfo 0%nat + cost LoggerInfo 1%nat + cost LoggerInfo 2%nat +
  cost LoggerInfo 3%nat.

(** The calls made between two states of the world. *)
Definition calls_since (w w' : world) : list op :=
  drop (length (trace w)) (trace w').

(** * Properties *)

(** ** Facts about the area counts of one sample *)

Lemma count_px_mono (f h : Z -> Z -> bool) (px : list (Z * Z)) :
  (forall p g, f p g = true -> h p g = true) ->
  metrics.count_px f px <= metrics.count_px h px.
Proof.
  intros Himp. induction px as [|[p g] rest IH]; simpl; [lia|].
  destruct (f p g) eqn:Hf.
  - rewrite (Himp _ _ Hf). lia.
  - destruct (h p g); lia.
Qed.

Lemma Forall2_fmap_same {A B} (R : B -> B -> Prop) (f h : A -> B) (l : list A) :
  (forall a, R (f a) (h a)) -> Forall2 R (f <$> l) (h <$> l).
Proof. intros HR. induction l; simpl; constructor; auto. Qed.

(** The three vectors of a sample have one entry per class, and the
    intersect area is below the other two in every class. *)
Lemma calculate_area_bounded pred label C ign i p l :
  metrics.calculate_area pred label C ign = Ok (i, p, l) ->
  length i = Z.to_nat C /\ length p = Z.to_nat C /\ length l = Z.to_nat C /\
  Forall2 Z.le i p /\ Forall2 Z.le i l.
Proof.
  unfold metrics.calculate_area. case_decide as Hs; [|discriminate].
  intros [= <- <- <-]. rewrite !length_fmap. unfold metrics.classes.
  rewrite length_seqZ. repeat split.
  - apply Forall2_fmap_same. intros c. apply count_px_mono.
    intros x g Hb. apply andb_true_iff in Hb. tauto.
  - apply Forall2_fmap_same. intros c. apply count_px_mono.
    intros x g Hb. apply andb_true_iff in Hb. tauto.
Qed.

(** ** Facts about adding running counts *)

Lemma add_area_tensors (u v : list Z) :
  length u = length v ->
  add_area (Tensor u) (Tensor v) = Ok (Tensor (zip_with Z.add u v)).
Proof. intros Hl. unfold add_area. by rewrite decide_True. Qed.

Lemma add_area_zero_l (v : list Z) : add_area (Int 0) (Tensor v) = Ok (Tensor v).
Proof.
  unfold add_area. do 2 f_equal.
  induction v as [|x v IH]; [done|]. by rewrite fmap_cons, IH.
Qed.

Lemma zip_with_add_le (i i' p p' : list Z) :
  Forall2 Z.le i p -> Forall2 Z.le i' p' ->
  Forall2 Z.le (zip_with Z.add i i') (zip_with Z.add p p').
Proof.
  intros H. revert i' p'. induction H as [|x y i p Hxy H IH]; intros i' p' H'.
  - constructor.
  - destruct H' as [|x' y' i' p' Hxy' H']; simpl; constructor; [lia|auto].
Qed.

(** ** The shape of the running counts *)


Lemma accumulate_step_shape C ign st pred label st' :
  st = counts_init \/ class_counts (Z.to_nat C) st ->
  accumulate_step metrics.calculate_area C ign st pred label = Ok st' ->
  class_counts (Z.to_nat C) st'.
Proof.
  intros Hst. unfold accumulate_step.
  destruct (metrics.calculate_area pred label C ign) as [[[i p] l]|e] eqn:Hc;
    [|discriminate].
  apply calculate_area_bounded in Hc as (Hi & Hp & Hl & Hip & Hil). simpl.
  destruct Hst as [->|(i0 & p0 & l0 & -> & Hi0 & Hp0 & Hl0 & Hip0 & Hil0)].
  - simpl intersect_area_all; simpl pred_area_all; simpl label_area_all.
    rewrite !add_area_zero_l. simpl. intros [= <-].
    exists i, p, l. done.
  - simpl intersect_area_all; simpl pred_area_all; simpl label_area_all.
    rewrite !add_area_tensors by congruence. simpl. intros [= <-].
    eexists _, _, _. split; [done|].
    rewrite !length_zip_with.
    repeat split; try lia; by apply zip_with_add_le.
Qed.

Lemma reachable_shape C ign st :
  reachable metrics.calculate_area C ign st ->
  st = counts_init \/ class_counts (Z.to_nat C) st.
Proof.
  induction 1 as [|st pred label st' _ IH Hstep]; [by left|].
  right. by eapply accumulate_step_shape.
Qed.

Lemma accumulate_class_counts C ign ds st st' :
  class_counts (Z.to_nat C) st ->
  accumulate metrics.calculate_area C ign st ds = Ok st' ->
  class_counts (Z.to_nat C) st'.
Proof.
  revert st. induction ds as [|[pred label] ds IH]; intros st Hst; simpl.
  - by intros [= <-].
  - destruct (accumulate_step _ C ign st pred label) as [st1|e] eqn:Hs;
      [|discriminate].
    simpl. apply IH. eapply accumulate_step_shape; [by right|exact Hs].
Qed.

Lemma accumulate_reachable C ign ds st st' :
  reachable metrics.calculate_area C ign st ->
  accumulate metrics.calculate_area C ign st ds = Ok st' ->
  reachable metrics.calculate_area C ign st'.
Proof.
  revert st. induction ds as [|[pred label] ds IH]; intros st Hr; simpl.
  - by intros [= <-].
  - destruct (accumulate_step _ C ign st pred label) as [st1|e] eqn:Hs;
      [|discriminate].
    simpl. apply IH. by eapply reachable_step.
Qed.

(** C1.  In every state the accumulation loop can reach, whatever samples
    were accumulated, each class's intersect count is at most its predicted
    count and at most its label count; once a sample has been accumulated
    every class index below the class count has an entry. *)
Theorem C1_intersect_bounded (C ign : Z) (st : counts)
    (Hreach : reachable metrics.calculate_area C ign st) :
  (st <> counts_init ->
   forall c : nat, Z.of_nat c < C -> is_Some (area_get (intersect_area_all st) c)) /\
  (forall (c : nat) (x : Z),
     area_get (intersect_area_all st) c = Some x ->
     exists y z, area_get (pred_area_all st) c = Some y /\
                 area_get (label_area_all st) c = Some z /\
                 x <= y /\ x <= z).
Proof.
  destruct (reachable_shape _ _ _ Hreach)
    as [->|(i & p & l & -> & Hi & Hp & Hl & Hip & Hil)].
  - split; [done|]. intros c x. discriminate.
  - split.
    + intros _ c Hc. simpl. apply lookup_lt_is_Some. lia.
    + intros c x Hx. simpl in *.
      destruct (Forall2_lookup_l _ _ _ _ _ Hip Hx) as (y & Hy & Hxy).
      destruct (Forall2_lookup_l _ _ _ _ _ Hil Hx) as (z & Hz & Hxz).
      eauto 10.
Qed.

Lemma C1_intersect_bounded_witness :
  let st := Counts (Tensor [1; 2]) (Tensor [1; 3]) (Tensor [2; 2]) in
  reachable metrics.calculate_area 2 255 st /\
  (st <> counts_init ->
   forall c : nat, Z.of_nat c < 2 -> is_Some (area_get (intersect_area_all st) c)) /\
  (forall (c : nat) (x : Z),
     area_get (intersect_area_all st) c = Some x ->
     exists y z, area_get (pred_area_all st) c = Some y /\
                 area_get (label_area_all st) c = Some z /\
                 x <= y /\ x <= z).
Proof.
  intros st.
  assert (Hreach : reachable metrics.calculate_area 2 255 st).
  { apply (reachable_step _ _ _ counts_init [[0;1];[1;1]] [[0;1];[1;0]]).
    - apply reachable_init.
    - reflexivity. }
  split; [exact Hreach|].
  exact (C1_intersect_bounded 2 255 st Hreach).
Defined.

(** ** Splitting the accumulation *)

Lemma accumulate_step_init (calc : area_fn) C ign pred label :
  accumulate_step calc C ign counts_init pred label =
  '(i, p, l) ← calc pred label C ign; Ok (Counts (Tensor i) (Tensor p) (Tensor l)).
Proof.
  unfold accumulate_step. destruct (calc pred label C ign) as [[[i p] l]|e]; [|done].
  cbn -[add_area]. by rewrite !add_area_zero_l.
Qed.

(** Adding a sample to counts [s] is adding the sample to a fresh
    accumulator and summing the two. *)
Lemma accumulate_step_merge (calc : area_fn) C ign s pred label :
  accumulate_step calc C ign s pred label =
  t ← accumulate_step calc C ign counts_init pred label;
  add_counts s t.
Proof.
  rewrite accumulate_step_init. unfold accumulate_step.
  by destruct (calc pred label C ign) as [[[i p] l]|e].
Qed.

Lemma res_bind_ret {A} (m : res A) : (x ← m; Ok x) = m.
Proof. by destruct m. Qed.

(** C2.  Accumulating samples A and B in one pass gives the same counts as
    accumulating A and then B into the same accumulator, and the same as
    accumulating A and B into two fresh accumulators and summing their
    counts entry by entry; this holds whatever area function the loop
    calls, also when a sample is rejected. *)
Theorem C2_accumulate_split (calculate_area : area_fn) (A B : grid * grid)
    (C ign : Z) :
  let acc := accumulate calculate_area C ign in
  acc counts_init [A; B] = (s ← acc counts_init [A]; acc s [B]) /\
  acc counts_init [A; B] =
    (s1 ← acc counts_init [A]; s2 ← acc counts_init [B]; add_counts s1 s2).
Proof.
  destruct A as [pA lA], B as [pB lB]. simpl. split.
  - by rewrite res_bind_ret.
  - rewrite !res_bind_ret.
    destruct (accumulate_step _ C ign counts_init pA lA) as [s1|e] eqn:HA; [|done].
    cbn -[add_area]. rewrite res_bind_ret. apply accumulate_step_merge.
Qed.

(** With the areas of the metric library, on two concrete samples. *)
Example accumulate_split_two_samples :
  accumulate metrics.calculate_area 2 255 counts_init (samples toy.two_samples)
  = Ok (Counts (Tensor [2; 3]) (Tensor [3; 4]) (Tensor [3; 4])) /\
  (s1 ← accumulate metrics.calculate_area 2 255 counts_init
          [([[0; 1]; [1; 1]], [[0; 1]; [1; 0]])];
   s2 ← accumulate metrics.calculate_area 2 255 counts_init
          [([[1; 1]; [0; 0]], [[1; 255]; [0; 1]])];
   Ok (s1, s2))
  = Ok (Counts (Tensor [1; 2]) (Tensor [1; 3]) (Tensor [2; 2]),
        Counts (Tensor [1; 1]) (Tensor [2; 1]) (Tensor [1; 2])).
Proof. split; reflexivity. Qed.

(** ** The worked scenario *)

(** C3.  For groundTruth [[0,1],[1,0]], predicted [[0,1],[1,1]], two classes
    and ignore index 255, one accumulate step from the initial counts gives
    intersect [1,2], predicted [1,3] and label [2,2]; the per-class IoU is
    [1/2, 2/3], its mean 7/12 rounds to 0.5833, and the overall accuracy is
    3/4 = 0.75. *)
Theorem C3_scenario :
  let label := [[0; 1]; [1; 0]] in
  let pred := [[0; 1]; [1; 1]] in
  accumulate_step metrics.calculate_area 2 255 counts_init pred label
    = Ok (Counts (Tensor [1; 2]) (Tensor [1; 3]) (Tensor [2; 2])) /\
  metrics.mean_iou [1; 2] [1; 3] [2; 2] = Ok ([1 # 2; 2 # 3]%Q, (7 # 12)%Q) /\
  (Qabs ((7 # 12) - 0.5833) <= 1 # 20000)%Q /\
  (exists class_acc, metrics.accuracy [1; 2] [1; 3] = Ok (class_acc, (3 # 4)%Q)) /\
  ((3 # 4) == 0.75)%Q.
Proof.
  cbv zeta. split; [|split; [|split; [|split]]].
  - vm_compute. reflexivity.
  - vm_compute. reflexivity.
  - apply Qle_bool_imp_le. vm_compute. reflexivity.
  - eexists. vm_compute. reflexivity.
  - vm_compute. reflexivity.
Qed.

(** ** Ignored pixels *)

Lemma counted_app ign (a b : list (Z * Z)) :
  metrics.counted ign (a ++ b) = metrics.counted ign a ++ metrics.counted ign b.
Proof.
  induction a as [|[p g] a IH]; simpl; [done|].
  destruct (g =? ign); simpl; by rewrite IH.
Qed.

Lemma pixels_cons (row row' : list Z) (g g' : grid) :
  length row = length row' ->
  metrics.pixels (row :: g) (row' :: g') = zip row row' ++ metrics.pixels g g'.
Proof. intros Hl. unfold metrics.pixels. simpl. by apply zip_with_app. Qed.

Lemma length_inject_row (k : nat) (x : Z) (row : list Z) :
  length (take k row ++ x :: drop k row) = S (length row).
Proof.
  rewrite length_app. simpl. rewrite length_take, length_drop. lia.
Qed.

(** Injecting a pixel at the same position of both grids keeps them of equal
    shape, or of different shape. *)
Lemma inject_px_shape (r k : nat) (x y : Z) (pred label : grid) :
  shape (inject_px r k x pred) = shape (inject_px r k y label) <->
  shape pred = shape label.
Proof.
  revert label r. induction pred as [|row pred IH]; intros [|row' label] r.
  - done.
  - destruct r; simpl; split; discriminate.
  - destruct r; simpl; split; discriminate.
  - destruct r as [|r]; unfold inject_px, shape in *; simpl.
    + rewrite !length_inject_row. split; intros [= Hl Hs]; by rewrite Hl, Hs.
    + split; intros [= Hl Hs]; f_equal; try done; by apply (IH label r).
Qed.

Lemma inject_row_counted (ign : Z) (k : nat) (x : Z) (row row' : list Z) :
  length row = length row' ->
  metrics.counted ign (zip (take k row ++ x :: drop k row)
                           (take k row' ++ ign :: drop k row'))
  = metrics.counted ign (zip row row').
Proof.
  intros Hl. rewrite zip_with_app by (rewrite !length_take; lia).
  rewrite counted_app. cbn [zip_with metrics.counted]. rewrite Z.eqb_refl.
  rewrite <- counted_app, <- zip_with_take, <- zip_with_drop.
  by rewrite take_drop.
Qed.

(** A pixel injected with ground truth [ign] is not among the counted
    pixels. *)
Lemma inject_px_counted (ign : Z) (r k : nat) (x : Z) (pred label : grid) :
  shape pred = shape label ->
  metrics.counted ign (metrics.pixels (inject_px r k x pred) (inject_px r k ign label))
  = metrics.counted ign (metrics.pixels pred label).
Proof.
  revert label r. induction pred as [|row pred IH]; intros [|row' label] r Hs;
    try done.
  injection Hs as Hl Hs. destruct r as [|r]; unfold inject_px in *; simpl.
  - rewrite !pixels_cons by (by rewrite ?length_inject_row, ?Hl).
    rewrite !counted_app. f_equal. by apply inject_row_counted.
  - rewrite !pixels_cons by done. rewrite !counted_app. f_equal. by apply IH.
Qed.

(** C4.  A pixel whose ground truth is the ignore index contributes to none
    of the three area vectors: accumulating a sample with such a pixel
    injected at row [r], column [k] (whatever is predicted there) gives the
    same result as accumulating the sample without it. *)
Theorem C4_ignored_pixel (C ign : Z) (st : counts) (pred label : grid)
    (r k : nat) (x : Z) :
  metrics.calculate_area (inject_px r k x pred) (inject_px r k ign label) C ign
    = metrics.calculate_area pred label C ign /\
  accumulate_step metrics.calculate_area C ign st
      (inject_px r k x pred) (inject_px r k ign label)
    = accumulate_step metrics.calculate_area C ign st pred label.
Proof.
  assert (Hcalc :
    metrics.calculate_area (inject_px r k x pred) (inject_px r k ign label) C ign
    = metrics.calculate_area pred label C ign).
  { unfold metrics.calculate_area.
    destruct (decide (shape pred = shape label)) as [Hs|Hs].
    - rewrite decide_True by (by apply inject_px_shape).
      by rewrite inject_px_counted.
    - rewrite decide_False; [done|]. intros Hs'. apply Hs.
      by apply inject_px_shape in Hs'. }
  split; [exact Hcalc|]. unfold accumulate_step. by rewrite Hcalc.
Qed.

(** An injected pixel with any other ground truth is counted. *)
Example injected_pixel_counted :
  metrics.calculate_area (inject_px 0 1 1 [[0; 1]]) (inject_px 0 1 1 [[0; 1]]) 2 255
  = Ok ([1; 2], [1; 2], [1; 2]).
Proof. reflexivity. Qed.

Example injected_pixel_ignored :
  metrics.calculate_area (inject_px 0 1 1 [[0; 1]]) (inject_px 0 1 255 [[0; 1]]) 2 255
  = Ok ([1; 1], [1; 1], [1; 1]).
Proof. reflexivity. Qed.

(** ** The metric derivations *)

(** Where the divisor is nonzero [divide] is the quotient, and where it is
    zero the quotient of the rationals is 0 as well. *)
Lemma divide_correct (a b : Q) : (metrics.divide a b == a / b)%Q.
Proof.
  unfold metrics.divide. destruct (Qeq_bool b 0) eqn:E.
  - apply Qeq_bool_iff in E. rewrite E. unfold Qdiv, Qinv. simpl. ring.
  - apply Qred_correct.
Qed.

Lemma divide_nonzero (a b : Q) :
  ~ (b == 0)%Q -> metrics.divide a b = Qred (a / b).
Proof.
  intros Hb. unfold metrics.divide.
  destruct (Qeq_bool b 0) eqn:E; [|done].
  apply Qeq_bool_iff in E. contradiction.
Qed.

(** What the pass over the classes computes. *)
Lemma iou_pass_spec (terms : list (Z * Z)) :
  metrics.iou_pass terms =
  ((fun t => metrics.class_ratio t.1 t.2) <$> terms,
   metrics.sumQ (term_ratio <$> valid_terms terms),
   Z.of_nat (length (valid_terms terms))).
Proof.
  induction terms as [|[num den] terms IH]; [done|].
  cbn [metrics.iou_pass]. rewrite IH. unfold valid_terms, metrics.class_ratio.
  destruct (Z.eqb_spec den 0) as [->|Hden].
  - by rewrite filter_cons_False by (simpl; lia).
  - rewrite filter_cons_True by done. cbn [fmap list_fmap length metrics.sumQ foldr].
    cbn [fst snd]. apply Z.eqb_neq in Hden. rewrite Hden.
    f_equal. lia.
Qed.

Lemma iou_terms_lookup (i p l : list Z) (c : nat) (ic pc lc : Z) :
  i !! c = Some ic -> p !! c = Some pc -> l !! c = Some lc ->
  metrics.iou_terms i p l !! c = Some (ic, pc + lc - ic).
Proof.
  intros Hi Hp Hl. unfold metrics.iou_terms.
  rewrite lookup_zip_with, Hi. simpl.
  by rewrite lookup_zip_with, Hp, Hl.
Qed.

(** [mean_iou] returns the per-class values and the quotient of the pass's
    sum and count. *)
Lemma mean_iou_value (intersect predicted label : list Z) :
  let terms := metrics.iou_terms intersect predicted label in
  metrics.mean_iou intersect predicted label =
  Ok ((fun t => metrics.class_ratio t.1 t.2) <$> terms,
      metrics.divide (metrics.sumQ (term_ratio <$> valid_terms terms))
        (inject_Z (Z.of_nat (length (valid_terms terms))))).
Proof. intros terms. unfold metrics.mean_iou. by rewrite iou_pass_spec. Qed.

(** C5.  For all count vectors [mean_iou] returns.  Its per-class value is
    intersect / (predicted + label - intersect) where that denominator is
    nonzero and 0 where it is zero, and its mean is the sum of the values of
    the classes with a nonzero denominator divided by the number of those
    classes: classes with a zero denominator are left out of the mean, not
    averaged in as 0.  (With no class left the quotient, by zero, is 0.) *)
Theorem C5_mean_iou (intersect predicted label : list Z) :
  let valid := valid_terms (metrics.iou_terms intersect predicted label) in
  exists (class_iou : list Q) (miou : Q),
    metrics.mean_iou intersect predicted label = Ok (class_iou, miou) /\
    (forall (c : nat) (ic pc lc : Z),
       intersect !! c = Some ic -> predicted !! c = Some pc -> label !! c = Some lc ->
       class_iou !! c =
         Some (if decide (pc + lc - ic = 0) then 0%Q
               else Qred (inject_Z ic / inject_Z (pc + lc - ic)))) /\
    (miou == metrics.sumQ (term_ratio <$> valid) / inject_Z (Z.of_nat (length valid)))%Q.
Proof.
  intros valid. rewrite mean_iou_value. fold valid.
  eexists _, _. split; [reflexivity|]. split.
  - intros c ic pc lc Hi Hp Hl. rewrite list_lookup_fmap.
    rewrite (iou_terms_lookup _ _ _ _ _ _ _ Hi Hp Hl). simpl.
    unfold metrics.class_ratio. f_equal.
    destruct (Z.eqb_spec (pc + lc - ic) 0); by case_decide.
  - apply divide_correct.
Qed.

(** One class without pixels next to one with IoU 1/2: the mean is 1/2, not
    1/4. *)
Lemma C5_mean_iou_witness :
  exists (class_iou : list Q) (miou : Q),
    metrics.mean_iou [1; 0] [2; 0] [1; 0] = Ok (class_iou, miou) /\
    class_iou = [1 # 2; 0]%Q /\ (miou == 1 # 2)%Q.
Proof.
  destruct (C5_mean_iou [1; 0] [2; 0] [1; 0]) as (v & m & Hm & Hc & Hmean).
  exists v, m. split; [exact Hm|].
  vm_compute in Hm. injection Hm as <- <-. split; reflexivity.
Defined.



(** ** The evaluation run *)

Section DriverProperties.
Context {image output transforms : Type}.
Variable cost : op -> nat -> Z.
Variable Predictor_init : Args -> res (@Predictor image output transforms).
Variable components_dict :
  gmap string (transforms -> option string -> option string -> res (@Dataset image)).
Variable calculate_area : area_fn.
Variable mean_iou : area -> area -> area -> res (list Q * Q).
Variable accuracy : area -> area -> res (list Q * Q).
Variable kappa : area -> area -> area -> res Q.

Local Abbreviation predictor := (@Predictor image output transforms).
Local Abbreviation dataset_of := (@Dataset image).


Lemma loop_body_outcome (self : predictor) (dataset : dataset_of) idx img label
    st total_time w :
  exists w',
    loop_body cost calculate_area self dataset idx img label st total_time w =
    (st' ← accumulate_step calculate_area (num_classes dataset)
             (ignore_index dataset) st
             (self_postprocess self (self_run self img)) label;
     Ok (st', total_time + cost Run idx), w').
Proof.
  unfold loop_body, call, time_time, lift, mbind, M_bind, mret, M_ret. simpl.
  destruct (accumulate_step _ _ _ _ _ _) as [st'|e]; simpl; eexists.
  - f_equal. do 2 f_equal. lia.
  - reflexivity.
Qed.

(** The loop adds up the samples' areas and the durations of the [Run]
    calls, and of nothing else. *)
Lemma loop_outcome (self : predictor) (dataset : dataset_of) rest idx
    st total_time w :
  exists w',
    loop cost calculate_area self dataset idx rest st total_time w =
    (st' ← accumulate calculate_area (num_classes dataset) (ignore_index dataset)
             st (predictions self rest);
     Ok (st', total_time + run_time cost idx (length rest)), w').
Proof.
  revert idx st total_time w.
  induction rest as [|[img label] rest IH]; intros idx st total_time w.
  - exists w. cbn. by rewrite Z.add_0_r.
  - cbn [loop]. unfold mbind at 1, M_bind at 1.
    destruct (loop_body_outcome self dataset idx img label st total_time w)
      as [w1 ->].
    cbn [predictions fmap list_fmap accumulate fst snd].
    destruct (accumulate_step _ _ _ _ _ _) as [st1|e]; cbn [mbind res_bind].
    + destruct (IH (S idx) st1 (total_time + cost Run idx) w1) as [w2 ->].
      exists w2. unfold predictions.
      destruct (accumulate _ _ _ _ _) as [st2|e]; cbn [mbind res_bind length run_time].
      * do 3 f_equal. lia.
      * reflexivity.
    + by exists w1.
Qed.

Lemma summarize_outcome (dataset : dataset_of) st total_time w :
  exists w',
    summarize cost mean_iou accuracy kappa dataset st total_time w =
    (summary mean_iou accuracy kappa (length (samples dataset)) total_time st, w').
Proof.
  unfold summarize, summary, call, lift, mbind, M_bind, mret, M_ret, res_bind, res_ret.
  simpl.
  destruct (mean_iou _ _ _) as [[class_iou miou]|e]; [|by eexists].
  destruct (accuracy _ _) as [[class_acc acc]|e]; [|by eexists].
  destruct (kappa _ _ _) as [k|e]; [|by eexists].
  destruct (average_time_of _ _) as [avg|e]; by eexists.
Qed.

(** Once the dataset is built, a run's outcome is that of [evaluation]. *)
Lemma test_dataset_outcome (self : predictor) new_dataset (dataset : dataset_of) w :
  dataset_type (self_args self) ≫= (components_dict !!.) = Some new_dataset ->
  new_dataset (self_transforms self) (dataset_path (self_args self))
    (dataset_mode (self_args self)) = Ok dataset ->
  exists w',
    test_dataset cost components_dict calculate_area mean_iou accuracy kappa self w
    = (evaluation cost calculate_area mean_iou accuracy kappa self dataset, w').
Proof.
  intros Htype Hnew. unfold test_dataset. rewrite Htype.
  unfold call, lift. unfold mbind at 1 2 3 4 5, M_bind at 1 2 3 4 5.
  rewrite Hnew.
  match goal with |- context [loop _ _ _ _ _ _ _ _ ?w0] =>
    destruct (loop_outcome self dataset (samples dataset) 0%nat counts_init 0 w0)
      as [w1 ->] end.
  unfold evaluation.
  destruct (accumulate _ _ _ _ _) as [st|e]; cbn [mbind res_bind]; [|by eexists].
  rewrite Z.add_0_l. apply summarize_outcome.
Qed.

(** C8, amended.  On a dataset with no samples the run does not complete.
    The loop body never runs, so the metric functions are called on the
    initial integer counts first: the run stops with the first error one of
    them raises, and only when the three of them return does it reach the
    division of the total time by [len(dataset)], which is by zero and
    faults. *)
Theorem C8_empty_dataset (self : predictor) new_dataset (dataset : dataset_of)
    (w : world)
    (Htype : dataset_type (self_args self) ≫= (components_dict !!.) = Some new_dataset)
    (Hnew : new_dataset (self_transforms self) (dataset_path (self_args self))
              (dataset_mode (self_args self)) = Ok dataset)
    (Hempty : samples dataset = []) :
  let out :=
    test_dataset cost components_dict calculate_area mean_iou accuracy kappa self w in
  ~ returns out.1 /\
  out.1 = ('(class_iou, miou) ← mean_iou (Int 0) (Int 0) (Int 0);
           '(class_acc, acc) ← accuracy (Int 0) (Int 0);
           k ← kappa (Int 0) (Int 0) (Int 0);
           Raise ZeroDivisionError) /\
  (returns (mean_iou (Int 0) (Int 0) (Int 0)) ->
   returns (accuracy (Int 0) (Int 0)) ->
   returns (kappa (Int 0) (Int 0) (Int 0)) ->
   out.1 = Raise ZeroDivisionError).
Proof.
  destruct (test_dataset_outcome self new_dataset dataset w Htype Hnew)
    as [w' Hout].
  cbv zeta. rewrite Hout. cbn [fst]. unfold evaluation, summary.
  rewrite Hempty. cbn [predictions fmap list_fmap accumulate length mbind res_bind
    counts_init intersect_area_all pred_area_all label_area_all].
  split; [|split].
  - intros [r Hr].
    destruct (mean_iou _ _ _) as [[ci m]|e]; [|discriminate].
    destruct (accuracy _ _) as [[ca a]|e]; [|discriminate].
    destruct (kappa _ _ _) as [k|e]; discriminate.
  - destruct (mean_iou _ _ _) as [[ci m]|e]; [|done].
    destruct (accuracy _ _) as [[ca a]|e]; [|done].
    by destruct (kappa _ _ _) as [k|e].
  - intros [[ci m] ->] [[ca a] ->] [k ->]. reflexivity.
Qed.

Lemma run_time_sum (idx n : nat) :
  run_time cost idx n = foldr Z.add 0 (cost Run <$> seq idx n).
Proof. revert idx. induction n as [|n IH]; intros idx; simpl; [done|]. by rewrite IH. Qed.

(** C10.  The average time a completed run reports is the sum, over the
    samples, of the duration of the [Run] call alone, divided by the number
    of samples; the durations of reshaping, of the copies to and from the
    device and of postprocessing do not enter it. *)
Theorem C10_average_time (self : predictor) new_dataset (dataset : dataset_of)
    (w w' : world) (r : Report)
    (Htype : dataset_type (self_args self) ≫= (components_dict !!.) = Some new_dataset)
    (Hnew : new_dataset (self_transforms self) (dataset_path (self_args self))
              (dataset_mode (self_args self)) = Ok dataset)
    (Hrun : test_dataset cost components_dict calculate_area mean_iou accuracy kappa
              self w = (Ok r, w')) :
  let n := length (samples dataset) in
  (0 < n)%nat /\ n_images r = n /\
  r_average_time r = Qmake (foldr Z.add 0 (cost Run <$> seq 0 n)) (Pos.of_nat n).
Proof.
  destruct (test_dataset_outcome self new_dataset dataset w Htype Hnew)
    as [w1 Hout].
  rewrite Hout in Hrun. injection Hrun as Hrun _.
  unfold evaluation, summary in Hrun.
  destruct (accumulate _ _ _ _ _) as [st|e]; [|discriminate].
  cbn [mbind res_bind] in Hrun.
  destruct (mean_iou _ _ _) as [[ci m]|e]; [|discriminate].
  destruct (accuracy _ _) as [[ca a]|e]; [|discriminate].
  destruct (kappa _ _ _) as [k|e]; [|discriminate].
  cbn [mbind res_bind] in Hrun. unfold average_time_of in Hrun.
  case_decide as Hn; [discriminate|].
  injection Hrun as <-. cbn [n_images r_average_time].
  rewrite run_time_sum. repeat split. lia.
Qed.

(** C7, amended.  When the dataset type or the dataset path is missing the
    program fails and neither builds a dataset nor runs the engine: the only
    call it can have made is the construction of the predictor.  When one
    of the two options is absent from the command line the parser exits
    with status 2 and nothing at all is called; when both are given and one
    is empty, the predictor is constructed first and the run then stops
    with the RuntimeError of [main]. *)
Theorem C7_missing_parameters (argv : cmdline) (w : world)
    (Hmissing : truthy (opt_dataset_type argv) = false \/
                truthy (opt_dataset_path argv) = false) :
  let out := program cost Predictor_init components_dict calculate_area
               mean_iou accuracy kappa argv w in
  (exists e, out.1 = Raise e) /\
  (trace out.2 = trace w \/ trace out.2 = trace w ++ [PredictorInit]) /\
  (opt_dataset_type argv = None \/ opt_dataset_path argv = None ->
   out = (Raise (SystemExit 2), w)) /\
  (forall args self, parse_args argv = Ok args -> Predictor_init args = Ok self ->
   out.1 = Raise (RuntimeError "Please set dataset_type and dataset_path.") /\
   trace out.2 = trace w ++ [PredictorInit]).
Proof.
  unfold program, main, call, lift, raise, parse_args, mbind, M_bind.
  destruct argv as [c t p m]. cbn [opt_config opt_dataset_type opt_dataset_path
    opt_dataset_mode] in *.
  destruct c as [c|], t as [t|], p as [p|]; cbn [fst snd trace];
    try (split; [by eexists|]; split; [by left|]; split; [done|];
         intros args self [=]).
  - cbn [dataset_type dataset_path].
    assert (Hcheck : truthy (Some t) && truthy (Some p) = false).
    { destruct Hmissing as [-> | ->]; [done|]. by rewrite andb_false_r. }
    rewrite Hcheck.
    destruct (Predictor_init _) as [self|e] eqn:Hinit; cbn [fst snd trace].
    + split; [by eexists|]. split; [by right|]. split.
      * intros [[=]|[=]].
      * intros args self' [= <-] Hself. done.
    + split; [by eexists|]. split; [by right|]. split.
      * intros [[=]|[=]].
      * intros args self' [= <-] Hself. congruence.
Qed.

End DriverProperties.

(** C8 fails as stated: with a metric library that rejects the integer
    counts, the run on a dataset without samples stops in [mean_iou], right
    after the setup calls, and never gets to the division. *)
Lemma C8_empty_run_stops_in_mean_iou :
  test_dataset toy.cost toy.components_dict metrics.calculate_area
    toy.mean_iou toy.accuracy toy.kappa (toy.self_for "NoSamples") world_init
  = (Raise (OtherError "not a tensor"),
     World 4 [DatasetInit; GetHandles; ProgbarInit; MeanIou]).
Proof. vm_compute. reflexivity. Qed.

Lemma C8_empty_dataset_witness :
  let out :=
    test_dataset toy.cost toy.components_dict metrics.calculate_area
      toy.mean_iou toy.accuracy toy.kappa (toy.self_for "NoSamples") world_init in
  ~ returns out.1 /\ out.1 = Raise (OtherError "not a tensor").
Proof.
  pose proof (C8_empty_dataset toy.cost toy.components_dict
                metrics.calculate_area toy.mean_iou toy.accuracy toy.kappa
                (toy.self_for "NoSamples") (fun _ _ _ => Ok toy.no_samples)
                toy.no_samples world_init eq_refl eq_refl eq_refl)
    as (Hfail & Hout & _).
  split; [exact Hfail|exact Hout].
Defined.

Lemma C10_average_time_witness :
  exists r w',
    test_dataset toy.cost toy.components_dict metrics.calculate_area
      toy.mean_iou toy.accuracy toy.kappa (toy.self_for "TwoSamples") world_init
    = (Ok r, w') /\
    r_average_time r = Qmake (7 + 8) 2.
Proof.
  eexists _, _. split; [vm_compute; reflexivity|].
  refine (proj2 (proj2 (C10_average_time toy.cost toy.components_dict
                   metrics.calculate_area toy.mean_iou toy.accuracy toy.kappa
                   (toy.self_for "TwoSamples") (fun _ _ _ => Ok toy.two_samples)
                   toy.two_samples world_init _ _ _ _ _))).
  - vm_compute. reflexivity.
  - reflexivity.
  - vm_compute. reflexivity.
Defined.

(** C7 fails as stated: with a dataset type that is given but empty, the
    predictor has been constructed by the time the error is raised. *)
Lemma C7_empty_type_after_predictor_init :
  toy.run {| opt_config := Some "deploy.yaml"%string;
             opt_dataset_type := Some ""%string;
             opt_dataset_path := Some "data"%string;
             opt_dataset_mode := None |}
  = (Raise (RuntimeError "Please set dataset_type and dataset_path."),
     World (toy.cost PredictorInit 0) [PredictorInit]).
Proof. vm_compute. reflexivity. Qed.

Lemma C7_missing_parameters_witness :
  let out := toy.run {| opt_config := Some "deploy.yaml"%string;
                        opt_dataset_type := Some "TwoSamples"%string;
                        opt_dataset_path := None;
                        opt_dataset_mode := None |} in
  (exists e, out.1 = Raise e) /\ out = (Raise (SystemExit 2), world_init).
Proof.
  pose proof (C7_missing_parameters toy.cost toy.Predictor_init toy.components_dict
                metrics.calculate_area toy.mean_iou toy.accuracy toy.kappa
                {| opt_config := Some "deploy.yaml"%string;
                   opt_dataset_type := Some "TwoSamples"%string;
                   opt_dataset_path := None;
                   opt_dataset_mode := None |}
                world_init (or_intror eq_refl)) as (Hfail & _ & Hexit & _).
  split; [exact Hfail|]. apply Hexit. by right.
Defined.

(** ** The initial counts *)

Lemma zip_with_add_zeros {A} (l : list A) (v : list Z) :
  length l = length v -> zip_with Z.add ((fun _ => 0) <$> l) v = v.
Proof.
  revert v. induction l as [|a l IH]; intros [|x v] Hl; try done.
  cbn. f_equal. apply IH. by injection Hl.
Qed.

(** Adding a sample to zero vectors of length [C] or to the initial integers
    gives the same counts. *)
Lemma accumulate_step_zeros C ign pred label :
  accumulate_step metrics.calculate_area C ign (counts_zeros C) pred label =
  accumulate_step metrics.calculate_area C ign counts_init pred label.
Proof.
  rewrite accumulate_step_init. unfold accumulate_step.
  destruct (metrics.calculate_area pred label C ign) as [[[i p] l]|e] eqn:Hc; [|done].
  apply calculate_area_bounded in Hc as (Hi & Hp & Hl & _).
  assert (Hn : length (metrics.classes C) = Z.to_nat C)
    by apply length_seqZ.
  cbn -[add_area].
  rewrite !add_area_tensors by (rewrite length_fmap; congruence).
  cbn -[add_area]. by rewrite !zip_with_add_zeros by congruence.
Qed.

(** C9 fails as stated: the counts start as the integer 0, which is not a
    vector and has no entry per class; with no sample accumulated they are
    still integers at the end of the loop. *)
Lemma C9_initial_counts_are_integers :
  counts_init = Counts (Int 0) (Int 0) (Int 0) /\
  counts_init <> counts_zeros 2 /\
  area_get (intersect_area_all counts_init) 0 = None /\
  accumulate metrics.calculate_area 2 255 counts_init [] = Ok counts_init.
Proof. repeat split; discriminate. Qed.

(** C9, amended.  The three running counts start as the integer 0.  Adding
    the first sample's areas turns them into vectors with one entry per
    class, so the final counts of a completed run are those that zero
    vectors of length C would have given; the summary metrics are derived
    from these final counts. *)
Theorem C9_initial_counts {image output transforms : Type}
    (cost : op -> nat -> Z)
    (components_dict :
       gmap string (transforms -> option string -> option string ->
                    res (@Dataset image)))
    (mean_iou : area -> area -> area -> res (list Q * Q))
    (accuracy : area -> area -> res (list Q * Q))
    (kappa : area -> area -> area -> res Q)
    (self : @Predictor image output transforms) new_dataset
    (dataset : @Dataset image) (w w' : world) (r : Report)
    (Htype : dataset_type (self_args self) ≫= (components_dict !!.) = Some new_dataset)
    (Hnew : new_dataset (self_transforms self) (dataset_path (self_args self))
              (dataset_mode (self_args self)) = Ok dataset)
    (Hrun : test_dataset cost components_dict metrics.calculate_area
              mean_iou accuracy kappa self w = (Ok r, w')) :
  let C := num_classes dataset in
  let acc := accumulate metrics.calculate_area C (ignore_index dataset) in
  exists st : counts,
    acc counts_init (predictions self (samples dataset)) = Ok st /\
    acc (counts_zeros C) (predictions self (samples dataset)) = Ok st /\
    class_counts (Z.to_nat C) st /\
    mean_iou (intersect_area_all st) (pred_area_all st) (label_area_all st)
      = Ok (r_class_iou r, r_miou r) /\
    accuracy (intersect_area_all st) (pred_area_all st)
      = Ok (r_class_acc r, r_acc r) /\
    kappa (intersect_area_all st) (pred_area_all st) (label_area_all st)
      = Ok (r_kappa r).
Proof.
  destruct (test_dataset_outcome cost components_dict metrics.calculate_area
              mean_iou accuracy kappa self new_dataset dataset w Htype Hnew)
    as [w1 Hout].
  rewrite Hout in Hrun. injection Hrun as Hrun _.
  unfold evaluation, summary in Hrun. cbv zeta.
  destruct (accumulate _ _ _ counts_init _) as [st|e] eqn:Hacc; [|discriminate].
  cbn [mbind res_bind] in Hrun.
  destruct (mean_iou _ _ _) as [[ci m]|e] eqn:Hm; [|discriminate].
  destruct (accuracy _ _) as [[ca a]|e] eqn:Ha; [|discriminate].
  destruct (kappa _ _ _) as [k|e] eqn:Hk; [|discriminate].
  cbn [mbind res_bind] in Hrun. unfold average_time_of in Hrun.
  case_decide as Hn; [discriminate|]. injection Hrun as <-.
  exists st. cbn [r_class_iou r_miou r_class_acc r_acc r_kappa].
  destruct (samples dataset) as [|[img label] rest]; [done|].
  cbn [predictions fmap list_fmap accumulate fst snd] in *.
  rewrite accumulate_step_zeros.
  destruct (accumulate_step _ _ _ counts_init _ _) as [st1|e] eqn:Hstep;
    [|discriminate].
  cbn [mbind res_bind] in *. repeat split; try done.
  eapply accumulate_class_counts; [|exact Hacc].
  eapply accumulate_step_shape; [by left|exact Hstep].
Qed.

Lemma C9_initial_counts_witness :
  exists st : counts,
    accumulate metrics.calculate_area 2 255 counts_init (samples toy.two_samples)
      = Ok st /\
    accumulate metrics.calculate_area 2 255 (counts_zeros 2) (samples toy.two_samples)
      = Ok st /\
    class_counts 2 st.
Proof.
  assert (Hrun : exists r w',
    test_dataset toy.cost toy.components_dict metrics.calculate_area
      toy.mean_iou toy.accuracy toy.kappa (toy.self_for "TwoSamples") world_init
    = (Ok r, w')) by (eexists _, _; vm_compute; reflexivity).
  destruct Hrun as (r & w' & Hrun).
  destruct (C9_initial_counts toy.cost toy.components_dict
              toy.mean_iou toy.accuracy toy.kappa (toy.self_for "TwoSamples")
              (fun _ _ _ => Ok toy.two_samples) toy.two_samples world_init w' r
              eq_refl eq_refl Hrun) as (st & Hinit & Hzeros & Hshape & _).
  exists st. split; [exact Hinit|]. split; [exact Hzeros|exact Hshape].
Defined.

(** * Further properties of the evaluation run *)

(** Closes [o ∉ l] for an explicit list [l] of other calls. *)
Ltac no_such_call :=
  let H := fresh in
  intros H; repeat (apply elem_of_cons in H as [H|H]; [discriminate H|]);
  by apply elem_of_nil in H.

Lemma calls_since_app (w : world) (c : Z) (d : list op) :
  calls_since w (World c (trace w ++ d)) = d.
Proof. unfold calls_since. cbn [trace]. by rewrite drop_app_length. Qed.

Section DriverTraces.
Context {image output transforms : Type}.
Variable cost : op -> nat -> Z.
Variable Predictor_init : Args -> res (@Predictor image output transforms).
Variable components_dict :
  gmap string (transforms -> option string -> option string -> res (@Dataset image)).
Variable calculate_area : area_fn.
Variable mean_iou : area -> area -> area -> res (list Q * Q).
Variable accuracy : area -> area -> res (list Q * Q).
Variable kappa : area -> area -> area -> res Q.

Local Abbreviation predictor := (@Predictor image output transforms).
Local Abbreviation dataset_of := (@Dataset image).

(** One pass through the loop body, with the clock and the calls. *)
Lemma loop_body_exact (self : predictor) (dataset : dataset_of) idx img label
    st total_time w :
  loop_body cost calculate_area self dataset idx img label st total_time w =
  match accumulate_step calculate_area (num_classes dataset) (ignore_index dataset)
          st (self_postprocess self (self_run self img)) label with
  | Ok st' =>
      (Ok (st', total_time + cost Run idx),
       World (clock w + ops_cost cost sample_ops idx) (trace w ++ sample_ops))
  | Raise e =>
      (Raise e,
       World (clock w + ops_cost cost attempt_ops idx) (trace w ++ attempt_ops))
  end.
Proof.
  unfold loop_body, call, time_time, lift, mbind, M_bind, mret, M_ret. simpl.
  destruct (accumulate_step _ _ _ _ _ _) as [st'|e]; simpl.
  - f_equal; [do 2 f_equal; lia|].
    f_equal; [unfold ops_cost; simpl; lia|by rewrite <- !app_assoc].
  - f_equal. f_equal; [unfold ops_cost; simpl; lia|by rewrite <- !app_assoc].
Qed.

Lemma loop_cost_S idx m :
  loop_cost cost idx (S m) = ops_cost cost sample_ops idx + loop_cost cost (S idx) m.
Proof. reflexivity. Qed.

(** A loop that accumulates every sample. *)
Lemma loop_complete (self : predictor) (dataset : dataset_of) rest idx
    st total_time w st' :
  accumulate calculate_area (num_classes dataset) (ignore_index dataset) st
    (predictions self rest) = Ok st' ->
  loop cost calculate_area self dataset idx rest st total_time w =
  (Ok (st', total_time + run_time cost idx (length rest)),
   World (clock w + loop_cost cost idx (length rest))
         (trace w ++ concat (replicate (length rest) sample_ops))).
Proof.
  revert idx st total_time w.
  induction rest as [|[img label] rest IH]; intros idx st total_time w.
  - cbn. intros [= <-]. destruct w as [c t]. cbn.
    by rewrite Z.add_0_r, app_nil_r, Z.add_0_r.
  - cbn [predictions fmap list_fmap accumulate fst snd loop length].
    unfold mbind at 2, M_bind at 1. rewrite loop_body_exact.
    destruct (accumulate_step _ _ _ _ _ _) as [st1|e]; [|discriminate].
    cbn [mbind res_bind]. intros Hacc.
    rewrite (IH _ _ _ _ Hacc). cbn [clock trace replicate concat run_time].
    rewrite loop_cost_S. f_equal; [do 2 f_equal; lia|].
    f_equal; [lia|by rewrite <- app_assoc].
Qed.

(** A loop whose sample number [k] is the first to be rejected. *)
Lemma loop_abort (self : predictor) (dataset : dataset_of) k rest idx
    st total_time w s pred label e :
  accumulate calculate_area (num_classes dataset) (ignore_index dataset) st
    (take k (predictions self rest)) = Ok s ->
  predictions self rest !! k = Some (pred, label) ->
  accumulate_step calculate_area (num_classes dataset) (ignore_index dataset)
    s pred label = Raise e ->
  loop cost calculate_area self dataset idx rest st total_time w =
  (Raise e,
   World (clock w + loop_cost cost idx k + ops_cost cost attempt_ops (idx + k))
         (trace w ++ concat (replicate k sample_ops) ++ attempt_ops)).
Proof.
  revert rest idx st total_time w.
  induction k as [|k IH]; intros [|[img label'] rest] idx st total_time w;
    try discriminate.
  - cbn [take accumulate predictions fmap list_fmap fst snd lookup list_lookup].
    intros [= <-] [= <- <-] Hstep.
    cbn [loop]. unfold mbind, M_bind. rewrite loop_body_exact, Hstep.
    cbn [replicate concat app]. unfold loop_cost. cbn [seq fmap list_fmap foldr].
    by rewrite Z.add_0_r, Nat.add_0_r.
  - cbn [take accumulate predictions fmap list_fmap fst snd lookup list_lookup].
    destruct (accumulate_step _ _ _ st _ _) as [st1|e1] eqn:H1; [|discriminate].
    cbn [mbind res_bind]. intros Hacc Hk Hstep.
    cbn [loop]. unfold mbind at 1, M_bind at 1. rewrite loop_body_exact, H1.
    rewrite (IH rest (S idx) st1 _ _ Hacc Hk Hstep).
    cbn [clock trace replicate concat]. rewrite loop_cost_S.
    replace (S idx + k)%nat with (idx + S k)%nat by lia.
    f_equal. f_equal; [lia|by rewrite <- !app_assoc].
Qed.

(** The derivations and the four log lines, when nothing raises. *)
Lemma summarize_complete (dataset : dataset_of) st total_time w r :
  summary mean_iou accuracy kappa (length (samples dataset)) total_time st = Ok r ->
  summarize cost mean_iou accuracy kappa dataset st total_time w =
  (Ok r, World (clock w + summary_cost cost) (trace w ++ summary_ops)).
Proof.
  unfold summarize, summary, call, lift, mbind, M_bind, mret, M_ret, res_bind, res_ret.
  simpl.
  destruct (mean_iou _ _ _) as [[class_iou miou]|e]; [|discriminate].
  destruct (accuracy _ _) as [[class_acc acc]|e]; [|discriminate].
  destruct (kappa _ _ _) as [k|e]; [|discriminate].
  destruct (average_time_of _ _) as [avg|e]; [|discriminate].
  intros [= <-]. f_equal. cbn [clock trace].
  f_equal; [unfold summary_cost; lia|by rewrite <- !app_assoc].
Qed.

(** Whatever the derivations do, the engine is not called after the loop. *)
Lemma summarize_no_run (dataset : dataset_of) st total_time w :
  exists c d,
    (summarize cost mean_iou accuracy kappa dataset st total_time w).2
      = World c (trace w ++ d) /\ Run ∉ d.
Proof.
  unfold summarize, call, lift, mbind, M_bind, mret, M_ret. simpl.
  destruct (mean_iou _ _ _) as [[class_iou miou]|e]; simpl.
  2:{ eexists _, [MeanIou]. split; [reflexivity|]. no_such_call. }
  destruct (accuracy _ _) as [[class_acc acc]|e]; simpl.
  2:{ eexists _, [MeanIou; Accuracy]. rewrite <- !app_assoc.
      split; [reflexivity|]. no_such_call. }
  destruct (kappa _ _ _) as [k|e]; simpl.
  2:{ eexists _, [MeanIou; Accuracy; Kappa]. rewrite <- !app_assoc.
      split; [reflexivity|]. no_such_call. }
  destruct (average_time_of _ _) as [avg|e]; simpl.
  - eexists _, summary_ops. rewrite <- !app_assoc.
    split; [reflexivity|]. no_such_call.
  - eexists _, [MeanIou; Accuracy; Kappa; LoggerInfo; LoggerInfo; LoggerInfo].
    rewrite <- !app_assoc. split; [reflexivity|]. no_such_call.
Qed.

(** The loop only adds calls to the trace. *)
Lemma loop_frame (self : predictor) (dataset : dataset_of) rest idx st total_time w :
  exists c d,
    (loop cost calculate_area self dataset idx rest st total_time w).2
      = World c (trace w ++ d).
Proof.
  revert idx st total_time w.
  induction rest as [|[img label] rest IH]; intros idx st total_time w.
  - exists (clock w), []. destruct w. cbn. by rewrite app_nil_r.
  - cbn [loop]. unfold mbind at 1, M_bind at 1. rewrite loop_body_exact.
    destruct (accumulate_step _ _ _ _ _ _) as [st1|e].
    + destruct (IH (S idx) st1 (total_time + cost Run idx)
                  (World (clock w + ops_cost cost sample_ops idx)
                         (trace w ++ sample_ops))) as (c & d & ->).
      exists c, (sample_ops ++ d). cbn [trace]. by rewrite <- app_assoc.
    + by eexists _, _.
Qed.

(** A run with every sample accumulated and every derivation returning,
    with the clock and the calls. *)
Lemma test_dataset_complete (self : predictor) new_dataset (dataset : dataset_of)
    w r :
  dataset_type (self_args self) ≫= (components_dict !!.) = Some new_dataset ->
  new_dataset (self_transforms self) (dataset_path (self_args self))
    (dataset_mode (self_args self)) = Ok dataset ->
  evaluation cost calculate_area mean_iou accuracy kappa self dataset = Ok r ->
  test_dataset cost components_dict calculate_area mean_iou accuracy kappa self w =
  (Ok r,
   World (clock w + setup_cost cost
          + loop_cost cost 0 (length (samples dataset)) + summary_cost cost)
         (trace w ++ setup_ops
          ++ concat (replicate (length (samples dataset)) sample_ops)
          ++ summary_ops)).
Proof.
  intros Htype Hnew Heval. unfold test_dataset. rewrite Htype.
  unfold call, lift. unfold mbind at 1 2 3 4 5, M_bind at 1 2 3 4 5.
  rewrite Hnew. unfold evaluation in Heval.
  destruct (accumulate _ _ _ _ _) as [st|e] eqn:Hacc; [|discriminate].
  cbn [mbind res_bind] in Heval.
  rewrite (loop_complete self dataset _ _ _ _ _ _ Hacc). rewrite Z.add_0_l.
  rewrite (summarize_complete dataset st _ _ r Heval).
  cbn [clock trace]. f_equal.
  f_equal; [unfold setup_cost; lia|]. rewrite <- !app_assoc. done.
Qed.

(** X3.  A completed run makes exactly these calls, in this order: the
    dataset is built and the handles and the progress bar are set up once;
    then, for every sample, the batch is built, reshaped and copied in, the
    engine runs once, the output is copied out and postprocessed, the label
    converted, the areas calculated and the progress bar updated; then the
    three metrics are derived and four lines are logged. *)
Theorem X3_calls_of_a_completed_run (self : predictor) new_dataset
    (dataset : dataset_of) (w w' : world) (r : Report)
    (Htype : dataset_type (self_args self) ≫= (components_dict !!.) = Some new_dataset)
    (Hnew : new_dataset (self_transforms self) (dataset_path (self_args self))
              (dataset_mode (self_args self)) = Ok dataset)
    (Hrun : test_dataset cost components_dict calculate_area mean_iou accuracy kappa
              self w = (Ok r, w')) :
  calls_since w w' =
  setup_ops ++ concat (replicate (length (samples dataset)) sample_ops)
  ++ summary_ops.
Proof.
  destruct (test_dataset_outcome cost components_dict calculate_area mean_iou
              accuracy kappa self new_dataset dataset w Htype Hnew) as [w1 Hout].
  assert (Heval : evaluation cost calculate_area mean_iou accuracy kappa self dataset
                  = Ok r) by congruence.
  rewrite (test_dataset_complete self new_dataset dataset w r Htype Hnew Heval)
    in Hrun.
  injection Hrun as <-. apply calls_since_app.
Qed.



(** X5.  A sample that the area calculation rejects aborts the run: when
    sample number [k] is the first one rejected, with error [e], the run
    raises [e]; the samples before it were processed in full, the engine ran
    on sample [k] too, and nothing is called afterwards: the remaining
    samples are not read, no metric is derived and nothing is logged. *)
Theorem X5_first_rejected_sample_aborts (self : predictor) new_dataset
    (dataset : dataset_of) (w : world) (k : nat) (s : counts)
    (pred label : grid) (e : exn)
    (Htype : dataset_type (self_args self) ≫= (components_dict !!.) = Some new_dataset)
    (Hnew : new_dataset (self_transforms self) (dataset_path (self_args self))
              (dataset_mode (self_args self)) = Ok dataset)
    (Hbefore : accumulate calculate_area (num_classes dataset) (ignore_index dataset)
                 counts_init (take k (predictions self (samples dataset))) = Ok s)
    (Hsample : predictions self (samples dataset) !! k = Some (pred, label))
    (Hreject : accumulate_step calculate_area (num_classes dataset)
                 (ignore_index dataset) s pred label = Raise e) :
  let out :=
    test_dataset cost components_dict calculate_area mean_iou accuracy kappa self w in
  out.1 = Raise e /\
  calls_since w out.2 = setup_ops ++ concat (replicate k sample_ops) ++ attempt_ops.
Proof.
  assert (Hout : exists c,
    test_dataset cost components_dict calculate_area mean_iou accuracy kappa self w
    = (Raise e,
       World c (trace w ++ setup_ops ++ concat (replicate k sample_ops)
                ++ attempt_ops))).
  { unfold test_dataset. rewrite Htype.
    unfold call, lift. unfold mbind at 1 2 3 4 5, M_bind at 1 2 3 4 5.
    rewrite Hnew.
    rewrite (loop_abort self dataset k _ _ _ _ _ s pred label e
               Hbefore Hsample Hreject).
    cbn [trace]. rewrite <- !app_assoc. by eexists. }
  destruct Hout as [c Hout]. cbv zeta. rewrite Hout. cbn [fst snd].
  split; [done|]. apply calls_since_app.
Qed.

(** What a run of [test_dataset] adds to the trace, and when it can contain
    a call of the engine. *)
Lemma test_dataset_guard (self : predictor) w :
  exists c d,
    (test_dataset cost components_dict calculate_area mean_iou accuracy kappa
       self w).2 = World c (trace w ++ d) /\
    (Run ∈ d ->
     exists new_dataset dataset,
       dataset_type (self_args self) ≫= (components_dict !!.) = Some new_dataset /\
       new_dataset (self_transforms self) (dataset_path (self_args self))
         (dataset_mode (self_args self)) = Ok dataset /\
       samples dataset <> []).
Proof.
  unfold test_dataset.
  destruct (dataset_type (self_args self) ≫= (components_dict !!.))
    as [new_dataset|] eqn:Htype.
  2:{ exists (clock w), []. destruct w. cbn. rewrite app_nil_r.
      split; [done|]. intros H. by apply elem_of_nil in H. }
  unfold call, lift. unfold mbind at 1 2 3 4 5, M_bind at 1 2 3 4 5.
  destruct (new_dataset _ _ _) as [dataset|e] eqn:Hnew.
  2:{ eexists _, [DatasetInit]. split; [reflexivity|]. no_such_call. }
  destruct (samples dataset) as [|[img label] rest] eqn:Hs.
  - cbn [loop mret M_ret].
    match goal with |- context [summarize _ _ _ _ _ ?st ?t ?w0] =>
      destruct (summarize_no_run dataset st t w0) as (c & d & Hd & Hno) end.
    exists c, (setup_ops ++ d).
    match goal with |- context [summarize _ _ _ _ _ ?st ?t ?w0] =>
      destruct (summarize cost mean_iou accuracy kappa dataset st t w0)
        as [out wout] end.
    cbn [snd] in *. subst wout. cbn [trace]. rewrite <- !app_assoc.
    split; [done|]. intros Hin. apply elem_of_app in Hin as [Hin|Hin]; [|done].
    exfalso. revert Hin. no_such_call.
  - match goal with |- context [loop _ _ _ _ _ ?l ?st ?t ?w0] =>
      destruct (loop_frame self dataset l 0%nat st t w0) as (c1 & d1 & Hd1);
      destruct (loop cost calculate_area self dataset 0 l st t w0)
        as [[[st1 t1]|e1] w1] end; cbn [snd] in Hd1; subst w1.
    + match goal with |- context [summarize _ _ _ _ _ ?st ?t ?w0] =>
        destruct (summarize_no_run dataset st t w0) as (c & d & Hd & Hno);
        destruct (summarize cost mean_iou accuracy kappa dataset st t w0)
          as [out wout] end.
      cbn [snd] in *. subst wout. cbn [trace]. rewrite <- !app_assoc.
      eexists _, _. split; [reflexivity|]. intros _.
      exists new_dataset, dataset. by rewrite Hs.
    + cbn [snd trace]. rewrite <- !app_assoc.
      eexists _, _. split; [reflexivity|]. intros _.
      exists new_dataset, dataset. by rewrite Hs.
Qed.

(** X6.  The engine runs only on a fully configured run: if the program
    calls the engine at all, then the command line was accepted, the
    predictor was constructed, dataset type and path are both set, the
    dataset type is registered, the dataset was built, and it has at least
    one sample. *)
Theorem X6_engine_runs_only_when_configured (argv : cmdline) (w : world) :
  let out := program cost Predictor_init components_dict calculate_area
               mean_iou accuracy kappa argv w in
  Run ∈ calls_since w out.2 ->
  exists args self new_dataset dataset,
    parse_args argv = Ok args /\ Predictor_init args = Ok self /\
    truthy (dataset_type args) = true /\ truthy (dataset_path args) = true /\
    dataset_type (self_args self) ≫= (components_dict !!.) = Some new_dataset /\
    new_dataset (self_transforms self) (dataset_path (self_args self))
      (dataset_mode (self_args self)) = Ok dataset /\
    samples dataset <> [].
Proof.
  cbv zeta. unfold program, lift. unfold mbind at 1, M_bind at 1.
  destruct (parse_args argv) as [args|e] eqn:Hparse.
  2:{ cbn [snd]. unfold calls_since. rewrite drop_all.
      intros H. by apply elem_of_nil in H. }
  unfold main, call, lift, raise. unfold mbind at 1 2, M_bind at 1 2.
  destruct (Predictor_init args) as [self|e] eqn:Hinit.
  2:{ cbn. rewrite (calls_since_app w). no_such_call. }
  destruct (truthy (dataset_type args)) eqn:Ht; cbn [andb].
  2:{ cbn. rewrite (calls_since_app w). no_such_call. }
  destruct (truthy (dataset_path args)) eqn:Hp.
  2:{ cbn. rewrite (calls_since_app w). no_such_call. }
  match goal with |- context [test_dataset _ _ _ _ _ _ _ ?w0] =>
    destruct (test_dataset_guard self w0) as (c & d & Hd & Hguard) end.
  cbn iota. rewrite Hd. cbn [trace]. rewrite <- app_assoc, (calls_since_app w).
  intros Hin. apply elem_of_cons in Hin as [Hin|Hin]; [discriminate|].
  destruct (Hguard Hin) as (new_dataset & dataset & H1 & H2 & H3).
  exists args, self, new_dataset, dataset. done.
Qed.

(** X7.  A dataset type that is not registered stops the run with the
    RuntimeError of [test_dataset] right after the predictor is constructed:
    no dataset is built and the engine is not called. *)
Theorem X7_unsupported_dataset_type (argv : cmdline) (w : world)
    (args : Args) (self : predictor) (name : string)
    (Hparse : parse_args argv = Ok args)
    (Hinit : Predictor_init args = Ok self)
    (Hargs : self_args self = args)
    (Hname : dataset_type args = Some name)
    (Hset : truthy (dataset_type args) && truthy (dataset_path args) = true)
    (Hmissing : components_dict !! name = None) :
  program cost Predictor_init components_dict calculate_area
    mean_iou accuracy kappa argv w
  = (Raise (RuntimeError "The dataset is not supported."),
     World (clock w + cost PredictorInit 0) (trace w ++ [PredictorInit])).
Proof.
  unfold program, lift. unfold mbind at 1, M_bind at 1. rewrite Hparse.
  unfold main, call, lift. unfold mbind at 1 2, M_bind at 1 2.
  rewrite Hinit, Hset. unfold test_dataset.
  rewrite Hargs, Hname. cbn [mbind option_bind]. by rewrite Hmissing.
Qed.

(** X8.  End to end: on an accepted command line with dataset type and path
    set, a predictor constructed for these arguments and a registered
    dataset that can be built, the program's outcome is the evaluation of
    that dataset: the counts accumulated over its samples, the metrics
    derived from them and the average engine time, or the first error on
    the way. *)
Theorem X8_program_outcome (argv : cmdline) (w : world)
    (args : Args) (self : predictor) new_dataset (dataset : dataset_of)
    (Hparse : parse_args argv = Ok args)
    (Hinit : Predictor_init args = Ok self)
    (Hargs : self_args self = args)
    (Hset : truthy (dataset_type args) && truthy (dataset_path args) = true)
    (Htype : dataset_type args ≫= (components_dict !!.) = Some new_dataset)
    (Hnew : new_dataset (self_transforms self) (dataset_path args)
              (dataset_mode args) = Ok dataset) :
  (program cost Predictor_init components_dict calculate_area
     mean_iou accuracy kappa argv w).1
  = evaluation cost calculate_area mean_iou accuracy kappa self dataset.
Proof.
  unfold program, lift. unfold mbind at 1, M_bind at 1. rewrite Hparse.
  unfold main, call, lift. unfold mbind at 1 2, M_bind at 1 2.
  rewrite Hinit, Hset. rewrite <- Hargs in Htype, Hnew.
  match goal with |- context [test_dataset _ _ _ _ _ _ _ ?w0] =>
    destruct (test_dataset_outcome cost components_dict calculate_area mean_iou
                accuracy kappa self new_dataset dataset w0 Htype Hnew)
      as [w1 ->] end.
  done.
Qed.

(** X9.  On a dataset without samples no call of the loop body is made, so
    the engine is never called: after the three setup calls the run calls
    [mean_iou] on the initial counts and then, at most, [accuracy], [kappa]
    and three log calls; the fourth line is never logged. *)
Theorem X9_empty_dataset_calls (self : predictor) new_dataset
    (dataset : dataset_of) (w : world)
    (Htype : dataset_type (self_args self) ≫= (components_dict !!.) = Some new_dataset)
    (Hnew : new_dataset (self_transforms self) (dataset_path (self_args self))
              (dataset_mode (self_args self)) = Ok dataset)
    (Hempty : samples dataset = []) :
  let out :=
    test_dataset cost components_dict calculate_area mean_iou accuracy kappa self w in
  (Run ∉ calls_since w out.2) /\
  exists d,
    calls_since w out.2 = setup_ops ++ MeanIou :: d /\
    (MeanIou :: d) `prefix_of`
      [MeanIou; Accuracy; Kappa; LoggerInfo; LoggerInfo; LoggerInfo].
Proof.
  assert (Hout : exists c d,
    (test_dataset cost components_dict calculate_area mean_iou accuracy kappa
       self w).2 = World c (trace w ++ setup_ops ++ MeanIou :: d) /\
    (MeanIou :: d) `prefix_of`
      [MeanIou; Accuracy; Kappa; LoggerInfo; LoggerInfo; LoggerInfo]).
  { unfold test_dataset. rewrite Htype.
    unfold call, lift. unfold mbind at 1 2 3 4 5, M_bind at 1 2 3 4 5.
    rewrite Hnew, Hempty. cbn [loop mret M_ret].
    unfold summarize, call, lift, mbind, M_bind, mret, M_ret.
    cbn [counts_init intersect_area_all pred_area_all label_area_all].
    destruct (mean_iou _ _ _) as [[ci m]|e]; cbn.
    2:{ eexists _, []. rewrite <- !app_assoc. split; [reflexivity|].
        by eexists. }
    destruct (accuracy _ _) as [[ca a]|e]; cbn.
    2:{ eexists _, [Accuracy]. rewrite <- !app_assoc. split; [reflexivity|].
        by eexists. }
    destruct (kappa _ _ _) as [k|e]; cbn.
    2:{ eexists _, [Accuracy; Kappa]. rewrite <- !app_assoc.
        split; [reflexivity|]. by eexists. }
    rewrite Hempty. cbn.
    eexists _, [Accuracy; Kappa; LoggerInfo; LoggerInfo; LoggerInfo].
    rewrite <- !app_assoc. split; [reflexivity|]. by exists []. }
  destruct Hout as (c & d & Hout & Hpre). cbv zeta. rewrite Hout.
  rewrite (calls_since_app w). split; [|by exists d].
  destruct Hpre as [rest Hrest]. intros Hin.
  assert (Hall : Run ∈ setup_ops ++ (MeanIou :: d) ++ rest)
    by (rewrite app_assoc; apply elem_of_app; by left).
  rewrite <- Hrest in Hall. revert Hall. no_such_call.
Qed.

(** The loop never logs. *)
Lemma loop_no_log (self : predictor) (dataset : dataset_of) rest idx st total_time w :
  exists c d,
    (loop cost calculate_area self dataset idx rest st total_time w).2
      = World c (trace w ++ d) /\ LoggerInfo ∉ d.
Proof.
  revert idx st total_time w.
  induction rest as [|[img label] rest IH]; intros idx st total_time w.
  - exists (clock w), []. destruct w. cbn. rewrite app_nil_r.
    split; [done|]. intros H. by apply elem_of_nil in H.
  - cbn [loop]. unfold mbind at 1, M_bind at 1. rewrite loop_body_exact.
    destruct (accumulate_step _ _ _ _ _ _) as [st1|e].
    + destruct (IH (S idx) st1 (total_time + cost Run idx)
                  (World (clock w + ops_cost cost sample_ops idx)
                         (trace w ++ sample_ops))) as (c & d & -> & Hno).
      exists c, (sample_ops ++ d). cbn [trace]. rewrite <- app_assoc.
      split; [done|]. intros Hin. apply elem_of_app in Hin as [Hin|Hin]; [|done].
      revert Hin. no_such_call.
    + eexists _, _. split; [reflexivity|]. no_such_call.
Qed.

(** The summary logs only when the three derivations returned. *)
Lemma summarize_log_guard (dataset : dataset_of) st total_time w :
  exists c d,
    (summarize cost mean_iou accuracy kappa dataset st total_time w).2
      = World c (trace w ++ d) /\
    (LoggerInfo ∈ d ->
     returns (mean_iou (intersect_area_all st) (pred_area_all st) (label_area_all st))
     /\ returns (accuracy (intersect_area_all st) (pred_area_all st))
     /\ returns (kappa (intersect_area_all st) (pred_area_all st)
                   (label_area_all st))).
Proof.
  unfold summarize, call, lift, mbind, M_bind, mret, M_ret. simpl.
  destruct (mean_iou _ _ _) as [[class_iou miou]|e]; simpl.
  2:{ eexists _, [MeanIou]. split; [reflexivity|].
      intros Hin. exfalso. revert Hin. no_such_call. }
  destruct (accuracy _ _) as [[class_acc acc]|e]; simpl.
  2:{ eexists _, [MeanIou; Accuracy]. rewrite <- !app_assoc.
      split; [reflexivity|]. intros Hin. exfalso. revert Hin. no_such_call. }
  destruct (kappa _ _ _) as [k|e]; simpl.
  2:{ eexists _, [MeanIou; Accuracy; Kappa]. rewrite <- !app_assoc.
      split; [reflexivity|]. intros Hin. exfalso. revert Hin. no_such_call. }
  destruct (average_time_of _ _) as [avg|e]; simpl.
  - eexists _, summary_ops. rewrite <- !app_assoc.
    split; [reflexivity|]. intros _. repeat split; by eexists.
  - eexists _, [MeanIou; Accuracy; Kappa; LoggerInfo; LoggerInfo; LoggerInfo].
    rewrite <- !app_assoc. split; [reflexivity|].
    intros _. repeat split; by eexists.
Qed.

(** X10.  Nothing is logged unless the whole dataset was evaluated: if a run
    logs at all, then the dataset was built, every sample was accumulated
    and the three metric derivations returned on the final counts. *)
Theorem X10_logs_only_after_all_metrics (self : predictor) (w : world) :
  let out :=
    test_dataset cost components_dict calculate_area mean_iou accuracy kappa self w in
  LoggerInfo ∈ calls_since w out.2 ->
  exists new_dataset dataset st,
    dataset_type (self_args self) ≫= (components_dict !!.) = Some new_dataset /\
    new_dataset (self_transforms self) (dataset_path (self_args self))
      (dataset_mode (self_args self)) = Ok dataset /\
    accumulate calculate_area (num_classes dataset) (ignore_index dataset)
      counts_init (predictions self (samples dataset)) = Ok st /\
    returns (mean_iou (intersect_area_all st) (pred_area_all st) (label_area_all st))
    /\ returns (accuracy (intersect_area_all st) (pred_area_all st))
    /\ returns (kappa (intersect_area_all st) (pred_area_all st) (label_area_all st)).
Proof.
  cbv zeta. unfold test_dataset.
  destruct (dataset_type (self_args self) ≫= (components_dict !!.))
    as [new_dataset|] eqn:Htype.
  2:{ cbn. unfold calls_since. rewrite drop_all.
      intros H. by apply elem_of_nil in H. }
  unfold call, lift. unfold mbind at 1 2 3 4 5, M_bind at 1 2 3 4 5.
  destruct (new_dataset _ _ _) as [dataset|e] eqn:Hnew.
  2:{ cbn. rewrite (calls_since_app w). no_such_call. }
  match goal with |- context [loop _ _ _ _ _ ?l ?st ?t ?w0] =>
    destruct (loop_outcome cost calculate_area self dataset l 0%nat st t w0)
      as [w1 Hloop];
    destruct (loop_no_log self dataset l 0%nat st t w0) as (c1 & d1 & Hd1 & Hno1)
  end.
  rewrite Hloop in Hd1 |- *. cbn [snd] in Hd1. subst w1.
  destruct (accumulate _ _ _ _ _) as [st|e] eqn:Hacc; cbn [mbind res_bind].
  - match goal with |- context [summarize _ _ _ _ _ ?st ?t ?w0] =>
      destruct (summarize_log_guard dataset st t w0) as (c & d & Hd & Hguard);
      destruct (summarize cost mean_iou accuracy kappa dataset st t w0)
        as [out wout] end.
    cbn [snd] in *. subst wout. cbn [trace]. rewrite <- !app_assoc.
    rewrite (calls_since_app w).
    intros Hin. exists new_dataset, dataset, st.
    split; [done|]. split; [done|]. split; [done|]. apply Hguard.
    repeat (apply elem_of_cons in Hin as [Hin|Hin]; [discriminate Hin|]).
    apply elem_of_app in Hin as [Hin|Hin]; [by apply Hno1 in Hin|done].
  - cbn [snd trace]. rewrite <- !app_assoc. rewrite (calls_since_app w).
    intros Hin.
    repeat (apply elem_of_cons in Hin as [Hin|Hin]; [discriminate Hin|]).
    by apply Hno1 in Hin.
Qed.

End DriverTraces.

Lemma X3_calls_of_a_completed_run_witness :
  exists r w',
    test_dataset toy.cost toy.components_dict metrics.calculate_area
      toy.mean_iou toy.accuracy toy.kappa (toy.self_for "TwoSamples") world_init
    = (Ok r, w') /\
    calls_since world_init w' =
    setup_ops ++ concat (replicate 2 sample_ops) ++ summary_ops.
Proof.
  eexists _, _. split; [vm_compute; reflexivity|].
  refine (X3_calls_of_a_completed_run toy.cost toy.components_dict
            metrics.calculate_area toy.mean_iou toy.accuracy toy.kappa
            (toy.self_for "TwoSamples") (fun _ _ _ => Ok toy.two_samples)
            toy.two_samples world_init _ _ _ _ _).
  - vm_compute. reflexivity.
  - reflexivity.
  - vm_compute. reflexivity.
Defined.



Lemma X5_first_rejected_sample_aborts_witness :
  let out :=
    test_dataset toy.cost toy.components_with_ragged metrics.calculate_area
      toy.mean_iou toy.accuracy toy.kappa (toy.self_for "Ragged") world_init in
  out.1 = Raise (ValueError "shape mismatch") /\
  calls_since world_init out.2 =
  setup_ops ++ concat (replicate 1 sample_ops) ++ attempt_ops.
Proof.
  refine (X5_first_rejected_sample_aborts toy.cost toy.components_with_ragged
            metrics.calculate_area toy.mean_iou toy.accuracy toy.kappa
            (toy.self_for "Ragged") (fun _ _ _ => Ok toy.ragged_second)
            toy.ragged_second world_init 1
            (Counts (Tensor [1; 2]) (Tensor [1; 3]) (Tensor [2; 2]))
            [[1; 1]; [0; 0]] [[1; 255]] (ValueError "shape mismatch")
            _ _ _ _ _).
  - vm_compute. reflexivity.
  - reflexivity.
  - vm_compute. reflexivity.
  - reflexivity.
  - vm_compute. reflexivity.
Defined.

Lemma X6_engine_runs_only_when_configured_witness :
  exists args self new_dataset dataset,
    parse_args (toy.argv_for "TwoSamples") = Ok args /\
    toy.Predictor_init args = Ok self /\
    truthy (dataset_type args) = true /\ truthy (dataset_path args) = true /\
    dataset_type (self_args self) ≫= (toy.components_dict !!.) = Some new_dataset /\
    new_dataset (self_transforms self) (dataset_path (self_args self))
      (dataset_mode (self_args self)) = Ok dataset /\
    samples dataset <> [].
Proof.
  apply (X6_engine_runs_only_when_configured toy.cost toy.Predictor_init
           toy.components_dict metrics.calculate_area toy.mean_iou toy.accuracy
           toy.kappa (toy.argv_for "TwoSamples") world_init).
  apply (list_elem_of_lookup_2 _ 7%nat). vm_compute. reflexivity.
Defined.

Lemma X7_unsupported_dataset_type_witness :
  toy.run (toy.argv_for "Unknown")
  = (Raise (RuntimeError "The dataset is not supported."),
     World (toy.cost PredictorInit 0) [PredictorInit]).
Proof.
  refine (X7_unsupported_dataset_type toy.cost toy.Predictor_init
            toy.components_dict metrics.calculate_area toy.mean_iou toy.accuracy
            toy.kappa (toy.argv_for "Unknown") world_init
            (toy.args_for "Unknown" "data") (toy.self_for "Unknown") "Unknown"
            _ _ _ _ _ _); reflexivity.
Defined.

Lemma X8_program_outcome_witness :
  (toy.run (toy.argv_for "TwoSamples")).1
  = evaluation toy.cost metrics.calculate_area toy.mean_iou toy.accuracy toy.kappa
      (toy.self_for "TwoSamples") toy.two_samples.
Proof.
  refine (X8_program_outcome toy.cost toy.Predictor_init
            toy.components_dict metrics.calculate_area toy.mean_iou toy.accuracy
            toy.kappa (toy.argv_for "TwoSamples") world_init
            (toy.args_for "TwoSamples" "data") (toy.self_for "TwoSamples")
            (fun _ _ _ => Ok toy.two_samples) toy.two_samples
            _ _ _ _ _ _); reflexivity.
Defined.

Lemma X9_empty_dataset_calls_witness :
  let out :=
    test_dataset toy.cost toy.components_dict metrics.calculate_area
      toy.mean_iou toy.accuracy toy.kappa (toy.self_for "NoSamples") world_init in
  (Run ∉ calls_since world_init out.2) /\
  exists d,
    calls_since world_init out.2 = setup_ops ++ MeanIou :: d /\
    (MeanIou :: d) `prefix_of`
      [MeanIou; Accuracy; Kappa; LoggerInfo; LoggerInfo; LoggerInfo].
Proof.
  exact (X9_empty_dataset_calls toy.cost toy.components_dict
           metrics.calculate_area toy.mean_iou toy.accuracy toy.kappa
           (toy.self_for "NoSamples") (fun _ _ _ => Ok toy.no_samples)
           toy.no_samples world_init eq_refl eq_refl eq_refl).
Defined.

Lemma X10_logs_only_after_all_metrics_witness :
  exists new_dataset dataset st,
    dataset_type (self_args (toy.self_for "TwoSamples"))
      ≫= (toy.components_dict !!.) = Some new_dataset /\
    new_dataset tt (Some "data"%string) (Some "val"%string) = Ok dataset /\
    accumulate metrics.calculate_area (num_classes dataset) (ignore_index dataset)
      counts_init (predictions (toy.self_for "TwoSamples") (samples dataset))
      = Ok st /\
    returns (toy.mean_iou (intersect_area_all st) (pred_area_all st)
               (label_area_all st)) /\
    returns (toy.accuracy (intersect_area_all st) (pred_area_all st)) /\
    returns (toy.kappa (intersect_area_all st) (pred_area_all st)
               (label_area_all st)).
Proof.
  apply (X10_logs_only_after_all_metrics toy.cost toy.components_dict
           metrics.calculate_area toy.mean_iou toy.accuracy toy.kappa
           (toy.self_for "TwoSamples") world_init).
  apply (list_elem_of_lookup_2 _ 24%nat). vm_compute. reflexivity.
Defined.
